(** * TileDB-VCF Python API: the [Dataset] session of [tiledbvcf/dataset.py]

    A shallow embedding of [apis/python/src/tiledbvcf/dataset.py].  The
    class [Dataset] is a thin orchestration layer over the [libtiledbvcf]
    engine: every method checks the access mode, pushes a handful of
    settings into the engine handle and asks it for one unit of work.

    The engine is not Python code, so it enters the development as an
    interface ([Environment]); the methods are written in a state and
    exception monad over the [Dataset] object, and every call that crosses
    the engine boundary is recorded, in order, in a ghost field of the
    object.  Statements about "which calls reach the engine" are statements
    about that record. *)

From Stdlib Require Import ZArith Ascii String DecimalString List.
From stdpp Require Import base list strings gmap sorting.

(** ** Fragments of the Python runtime *)

(** The exception classes the module raises, with their message. *)
Inductive exn :=
| PyException (msg : string)
| PyTypeError (msg : string)
| PyValueError (msg : string)
| PyAttributeError (name : string)
| PyKeyError (key : string).

Inductive outcome (A : Type) :=
| Ok (a : A)
| Raise (e : exn).
Arguments Ok {A} a.
Arguments Raise {A} e.

Definition outcome_map {A B} (f : A -> B) (o : outcome A) : outcome B :=
  match o with
  | Ok a => Ok (f a)
  | Raise e => Raise e
  end.

Definition raised {A} (o : outcome A) : option exn :=
  match o with
  | Ok _ => None
  | Raise e => Some e
  end.

(** Values a configuration dictionary may hold. *)
Inductive pyval :=
| PStr (s : string)
| PInt (n : Z)
| PBool (b : bool).

(** [str(v)], as used by [str.format]. *)
Definition py_str (v : pyval) : string :=
  match v with
  | PStr s => s
  | PInt n => NilZero.string_of_int (Z.to_int n)
  | PBool true => "True"
  | PBool false => "False"
  end.

(** [v != ""] *)
Definition ne_empty_str (v : pyval) : bool :=
  match v with
  | PStr s => negb (String.eqb s "")
  | _ => true
  end.

(** ["{}={}".format(key, value)] *)
Definition format_key_value (key : string) (v : pyval) : string :=
  key +:+ "=" +:+ py_str v.

(** A [dict] in insertion order; [dict_get] is [d[key]]. *)
Abbreviation pydict := (list (string * pyval)).

Fixpoint dict_get (d : pydict) (key : string) : option pyval :=
  match d with
  | [] => None
  | (k, v) :: rest => if String.eqb k key then Some v else dict_get rest key
  end.

Definition dict_keys (d : pydict) : list string := map fst d.

(** [sep.join(l)] *)
Definition join (sep : string) (l : list string) : string := String.concat sep l.

(** Iterating a [str] yields its characters as one-character strings. *)
Fixpoint iter_str (s : string) : list string :=
  match s with
  | EmptyString => []
  | String c rest => String c EmptyString :: iter_str rest
  end.

(** [",".join(x)] where [x] is ["" if arg is None else arg]. *)
Definition join_or_empty (arg : option (list string)) : string :=
  join "," (match arg with
            | None => iter_str ""
            | Some l => l
            end).

(** [fmt % args] for a tuple [args] of strings, restricted to the [%s]
    conversion (the only one the module uses). *)
Fixpoint percent_format (fmt : string) (args : list string) : outcome string :=
  match fmt with
  | EmptyString =>
      match args with
      | [] => Ok EmptyString
      | _ :: _ =>
          Raise (PyTypeError "not all arguments converted during string formatting")
      end
  | String "%"%char (String "s"%char rest) =>
      match args with
      | [] => Raise (PyTypeError "not enough arguments for format string")
      | a :: args' => outcome_map (String.append a) (percent_format rest args')
      end
  | String c rest => outcome_map (String c) (percent_format rest args)
  end.

(** [x in t] for a tuple of strings. *)
Definition str_in (x : string) (t : list string) : bool :=
  existsb (String.eqb x) t.

(** [sorted(list(s))] for a set of strings. *)
Definition sorted_list (s : gset string) : list string :=
  merge_sort String.le (elements s).

(** ** [ReadConfig] *)

(** The accepted shapes of [tiledb_config]: a [list] of ['option=value']
    strings, a [dict], a [tiledb.Config] object (keys and values are
    strings), or any other object. *)
Inductive tiledb_config_value :=
| CfgList (l : list string)
| CfgDict (d : pydict)
| CfgTiledbConfig (d : list (string * string))
| CfgOther.

Record ReadConfig := mkReadConfig {
  limit : option Z;
  region_partition : option (Z * Z);
  sample_partition : option (Z * Z);
  sort_regions : option bool;
  memory_budget_mb : option Z;
  tiledb_config : option tiledb_config_value
}.

(** [ReadConfig.__new__.__defaults__ = (None,) * 6] *)
Definition ReadConfig_defaults : ReadConfig :=
  mkReadConfig None None None None None None.

(** ** The engine boundary *)

(** Methods of [libtiledbvcf.Reader] that change the handle. *)
Inductive reader_cmd :=
| R_init (uri : string)
| R_reset
| R_set_max_num_records (n : Z)
| R_set_region_partition (idx num : Z)
| R_set_sample_partition (idx num : Z)
| R_set_sort_regions (b : bool)
| R_set_memory_budget (mb : Z)
| R_set_tiledb_config (csv : string)
| R_set_tiledb_stats_enabled (b : bool)
| R_set_verbose (b : bool)
| R_set_samples (csv : string)
| R_set_samples_file (uri : string)
| R_set_regions (csv : string)
| R_set_bed_file (uri : string)
| R_set_attributes (attrs : list string)
| R_read.

(** Accessors of [libtiledbvcf.Reader]. *)
Inductive reader_query :=
| Q_completed
| Q_get_results_arrow
| Q_result_num_records
| Q_get_queryable_attributes
| Q_get_fmt_attributes
| Q_get_info_attributes
| Q_get_sample_names
| Q_get_sample_count
| Q_get_schema_version
| Q_get_tiledb_stats.

(** Methods of [libtiledbvcf.Writer] that change the handle. *)
Inductive writer_cmd :=
| W_init (uri : string)
| W_set_verbose (b : bool)
| W_set_tiledb_config (csv : string)
| W_set_extra_attributes (csv : string)
| W_set_tile_capacity (n : Z)
| W_set_anchor_gap (n : Z)
| W_set_checksum (s : string)
| W_set_allow_duplicates (b : bool)
| W_create_dataset
| W_set_num_threads (n : Z)
| W_set_memory_budget (mb : Z)
| W_set_scratch_space (path : string) (size : Z)
| W_set_sample_batch_size (n : Z)
| W_set_samples (csv : string)
| W_register_samples
| W_ingest_samples.

Inductive writer_query :=
| WQ_get_schema_version.

(** One entry per call that crosses the engine boundary. *)
Inductive engine_call :=
| NewReader
| ReaderCmd (c : reader_cmd)
| ReaderQuery (q : reader_query)
| NewWriter
| WriterCmd (c : writer_cmd)
| WriterQuery (q : writer_query).

(** What the module uses and does not define: the [libtiledbvcf]
    handles, the Arrow-to-pandas conversion, the builtin [str.lower]
    (Unicode-aware, taken as given) and whether the optional [tiledb]
    package can be imported.  Commands are total state transformers and
    accessors are pure observations of the handle: an exception raised
    inside the engine, which every method would let through, is outside
    this interface, and so every statement below is about runs in which
    the engine calls return. *)
Class Environment := {
  Reader : Type;
  Writer : Type;
  ArrowTable : Type;
  DataFrame : Type;
  Reader_new : Reader;
  reader_exec : reader_cmd -> Reader -> Reader;
  reader_completed : Reader -> bool;
  reader_get_results_arrow : Reader -> ArrowTable;
  reader_result_num_records : Reader -> Z;
  reader_get_queryable_attributes : Reader -> list string;
  reader_get_fmt_attributes : Reader -> list string;
  reader_get_info_attributes : Reader -> list string;
  reader_get_sample_names : Reader -> list string;
  reader_get_sample_count : Reader -> Z;
  reader_get_schema_version : Reader -> Z;
  reader_get_tiledb_stats : Reader -> string;
  Writer_new : Writer;
  writer_exec : writer_cmd -> Writer -> Writer;
  writer_get_schema_version : Writer -> Z;
  to_pandas : ArrowTable -> DataFrame;
  num_rows : DataFrame -> nat;
  str_lower : string -> string;
  tiledb_importable : bool
}.

(** ** The [Dataset] object and the monad of its methods *)

Section Session.
Context `{E : Environment}.

(** The attributes [__init__] assigns, and the ghost record of engine
    calls.  [reader] and [writer] are [None] while the attribute does not
    exist on the object. *)
Record Dataset := mkDataset {
  uri : string;
  mode : string;
  cfg : option ReadConfig;
  reader : option Reader;
  writer : option Writer;
  engine_log : list engine_call
}.

(** A method body: it may mutate [self] and either returns or raises;
    mutations made before a [raise] persist. *)
Definition M (A : Type) : Type := Dataset -> outcome A * Dataset.

Global Instance M_ret : MRet M := fun A a d => (Ok a, d).

Global Instance M_bind : MBind M := fun A B f m d =>
  match m d with
  | (Ok a, d') => f a d'
  | (Raise e, d') => (Raise e, d')
  end.

Definition raise {A} (e : exn) : M A := fun d => (Raise e, d).

Definition lift {A} (o : outcome A) : M A := fun d => (o, d).

Definition skip : M unit := mret tt.

(** [if x is not None: body(x)] *)
Definition if_not_None {A} (x : option A) (body : A -> M unit) : M unit :=
  match x with
  | Some a => body a
  | None => skip
  end.

Definition is_not_None {A} (x : option A) : bool :=
  match x with
  | Some _ => true
  | None => false
  end.

Definition self_mode : M string := fun d => (Ok (mode d), d).

Definition assign_uri (u : string) : M unit := fun d =>
  (Ok tt, mkDataset u (mode d) (cfg d) (reader d) (writer d) (engine_log d)).

Definition assign_mode (m : string) : M unit := fun d =>
  (Ok tt, mkDataset (uri d) m (cfg d) (reader d) (writer d) (engine_log d)).

Definition assign_cfg (c : option ReadConfig) : M unit := fun d =>
  (Ok tt, mkDataset (uri d) (mode d) c (reader d) (writer d) (engine_log d)).

(** [self.reader = libtiledbvcf.Reader()] *)
Definition assign_reader_new : M unit := fun d =>
  (Ok tt, mkDataset (uri d) (mode d) (cfg d) (Some Reader_new) (writer d)
            (engine_log d ++ [NewReader])).

(** [self.writer = libtiledbvcf.Writer()] *)
Definition assign_writer_new : M unit := fun d =>
  (Ok tt, mkDataset (uri d) (mode d) (cfg d) (reader d) (Some Writer_new)
            (engine_log d ++ [NewWriter])).

(** [self.reader.<cmd>(...)] *)
Definition reader_call (c : reader_cmd) : M unit := fun d =>
  match reader d with
  | None => (Raise (PyAttributeError "reader"), d)
  | Some r =>
      (Ok tt, mkDataset (uri d) (mode d) (cfg d) (Some (reader_exec c r)) (writer d)
                (engine_log d ++ [ReaderCmd c]))
  end.

(** [self.reader.<accessor>()] *)
Definition reader_ask {A} (q : reader_query) (obs : Reader -> A) : M A := fun d =>
  match reader d with
  | None => (Raise (PyAttributeError "reader"), d)
  | Some r =>
      (Ok (obs r), mkDataset (uri d) (mode d) (cfg d) (reader d) (writer d)
                     (engine_log d ++ [ReaderQuery q]))
  end.

(** [self.writer.<cmd>(...)] *)
Definition writer_call (c : writer_cmd) : M unit := fun d =>
  match writer d with
  | None => (Raise (PyAttributeError "writer"), d)
  | Some w =>
      (Ok tt, mkDataset (uri d) (mode d) (cfg d) (reader d) (Some (writer_exec c w))
                (engine_log d ++ [WriterCmd c]))
  end.

(** [self.writer.<accessor>()] *)
Definition writer_ask {A} (q : writer_query) (obs : Writer -> A) : M A := fun d =>
  match writer d with
  | None => (Raise (PyAttributeError "writer"), d)
  | Some w =>
      (Ok (obs w), mkDataset (uri d) (mode d) (cfg d) (reader d) (writer d)
                     (engine_log d ++ [WriterQuery q]))
  end.

(** ** Configuration translation *)

(** The loop shared by the [dict] and [tiledb.Config] branches:
    [for key in c: if c[key] != "": lst.append("{}={}".format(key, c[key]))]. *)
Fixpoint append_config_items (c : pydict) (keys : list string) (lst : list string)
  : outcome (list string) :=
  match keys with
  | [] => Ok lst
  | key :: keys' =>
      match dict_get c key with
      | None => Raise (PyKeyError key)
      | Some v =>
          if ne_empty_str v
          then append_config_items c keys' (lst ++ [format_key_value key v])
          else append_config_items c keys' lst
      end
  end.

(** A [tiledb.Config] seen through [__iter__] and [__getitem__]. *)
Definition tiledb_Config_items (c : list (string * string)) : pydict :=
  map (fun kv => (fst kv, PStr (snd kv))) c.

(** The value of [tiledb_config_list] when it reaches [",".join]. *)
Definition tiledb_config_list (v : tiledb_config_value) : outcome (list string) :=
  match v with
  | CfgList l => Ok l
  | CfgDict c => append_config_items c (dict_keys c) []
  | CfgTiledbConfig c =>
      if tiledb_importable
      then append_config_items (tiledb_Config_items c)
             (dict_keys (tiledb_Config_items c)) []
      else Ok []
  | CfgOther => Ok []
  end.

Definition _set_read_cfg (cfg : option ReadConfig) : M unit :=
  match cfg with
  | None => skip
  | Some cfg =>
      if_not_None (limit cfg) (fun n => reader_call (R_set_max_num_records n)) ;;
      if_not_None (region_partition cfg)
        (fun p => reader_call (R_set_region_partition (fst p) (snd p))) ;;
      if_not_None (sample_partition cfg)
        (fun p => reader_call (R_set_sample_partition (fst p) (snd p))) ;;
      if_not_None (sort_regions cfg) (fun b => reader_call (R_set_sort_regions b)) ;;
      if_not_None (memory_budget_mb cfg)
        (fun mb => reader_call (R_set_memory_budget mb)) ;;
      if_not_None (tiledb_config cfg) (fun v =>
        tiledb_config_list ← lift (tiledb_config_list v);
        reader_call (R_set_tiledb_config (join "," tiledb_config_list)))
  end.

Definition _set_write_cfg (cfg : option ReadConfig) : M unit :=
  match cfg with
  | None => skip
  | Some cfg =>
      if_not_None (tiledb_config cfg) (fun v =>
        tiledb_config_list ← lift (tiledb_config_list v);
        writer_call (W_set_tiledb_config (join "," tiledb_config_list)))
  end.

(** ** [Dataset.__init__] *)

Definition __init__ (uri mode : string) (cfg : option ReadConfig)
  (stats verbose : bool) : M unit :=
  assign_uri uri ;;
  assign_mode mode ;;
  assign_cfg cfg ;;
  m ← self_mode;
  if String.eqb m "r" then
    assign_reader_new ;;
    _set_read_cfg cfg ;;
    reader_call (R_init uri) ;;
    reader_call (R_set_tiledb_stats_enabled stats) ;;
    reader_call (R_set_verbose verbose)
  else if String.eqb m "w" then
    assign_writer_new ;;
    _set_write_cfg cfg ;;
    writer_call (W_init uri) ;;
    writer_call (W_set_verbose verbose)
  else
    raise (PyException ("Unsupported dataset mode " +:+ mode)).

(** The object [__init__] receives as [self]: no attribute assigned, no
    engine call made. *)
Definition object_new : Dataset := mkDataset "" "" None None None [].

(** [Dataset(uri, mode, cfg, stats, verbose)] *)
Definition Dataset_new (uri mode : string) (cfg : option ReadConfig)
  (stats verbose : bool) : outcome unit * Dataset :=
  __init__ uri mode cfg stats verbose object_new.

(** ** Read-side methods *)

Definition _set_samples (samples : option (list string)) (samples_file : option string)
  : M unit :=
  match samples, samples_file with
  | Some _, Some _ =>
      raise (PyTypeError
        ("Argument 'samples' not allowed with 'samples_file'. " +:+
         "Only one of these two arguments can be passed at a time."))
  | Some samples, None => reader_call (R_set_samples (join "," samples))
  | None, Some samples_file =>
      reader_call (R_set_samples "") ;;
      reader_call (R_set_samples_file samples_file)
  | None, None => skip
  end.

Definition continue_read : M DataFrame :=
  m ← self_mode;
  if negb (String.eqb m "r") then raise (PyException "Dataset not open in read mode")
  else
    reader_call R_read ;;
    table ← reader_ask Q_get_results_arrow reader_get_results_arrow;
    mret (to_pandas table).

Definition read (attrs : list string) (samples regions : option (list string))
  (samples_file bed_file : option string) : M DataFrame :=
  m ← self_mode;
  if negb (String.eqb m "r") then raise (PyException "Dataset not open in read mode")
  else
    reader_call R_reset ;;
    _set_samples samples samples_file ;;
    reader_call (R_set_regions (join_or_empty regions)) ;;
    reader_call (R_set_attributes attrs) ;;
    if_not_None bed_file (fun f => reader_call (R_set_bed_file f)) ;;
    continue_read.

Definition read_completed : M bool :=
  m ← self_mode;
  if negb (String.eqb m "r") then raise (PyException "Dataset not open in read mode")
  else reader_ask Q_completed reader_completed.

Definition count (samples regions : option (list string)) : M Z :=
  m ← self_mode;
  if negb (String.eqb m "r") then raise (PyException "Dataset not open in read mode")
  else
    reader_call R_reset ;;
    reader_call (R_set_samples (join_or_empty samples)) ;;
    reader_call (R_set_regions (join_or_empty regions)) ;;
    reader_call R_read ;;
    completed ← read_completed;
    if negb completed then raise (PyException "Unexpected read status during count.")
    else reader_ask Q_result_num_records reader_result_num_records.

(** *** The generator [read_iter]

    Calling [read_iter(...)] runs none of its body: it returns a generator
    object.  Each [next] runs the body up to the following [yield], to the
    end of the body ([StopIteration]) or to an uncaught exception; after
    either of the last two the generator is closed. *)

Inductive generator_state :=
| GenCreated
| GenSuspended
| GenClosed.

Record read_iter_generator := mkReadIter {
  gen_state : generator_state;
  gen_attrs : list string;
  gen_samples : option (list string);
  gen_regions : option (list string);
  gen_samples_file : option string;
  gen_bed_file : option string
}.

Definition read_iter (attrs : list string) (samples regions : option (list string))
  (samples_file bed_file : option string) : read_iter_generator :=
  mkReadIter GenCreated attrs samples regions samples_file bed_file.

Definition gen_moved (g : read_iter_generator) (st : generator_state)
  : read_iter_generator :=
  mkReadIter st (gen_attrs g) (gen_samples g) (gen_regions g) (gen_samples_file g)
    (gen_bed_file g).

(** [while not self.read_completed(): yield self.continue_read()], run to
    its next [yield] ([Some]) or to the end of the body ([None]).  Both
    [yield]s of the body resume here. *)
Definition read_iter_while : M (option DataFrame) :=
  completed ← read_completed;
  if negb completed then df ← continue_read; mret (Some df)
  else mret None.

(** The body from its first line. *)
Definition read_iter_body (g : read_iter_generator) : M (option DataFrame) :=
  m ← self_mode;
  if negb (String.eqb m "r") then raise (PyException "Dataset not open in read mode")
  else
    completed ← read_completed;
    if negb completed then
      df ← read (gen_attrs g) (gen_samples g) (gen_regions g) (gen_samples_file g)
             (gen_bed_file g);
      mret (Some df)
    else read_iter_while.

Inductive gen_event :=
| Yield (df : DataFrame)
| StopIteration
| Throw (e : exn).

(** [next(g)] *)
Definition read_iter_next (g : read_iter_generator) (d : Dataset)
  : gen_event * read_iter_generator * Dataset :=
  let resume (body : M (option DataFrame)) :=
    match body d with
    | (Ok (Some df), d') => (Yield df, gen_moved g GenSuspended, d')
    | (Ok None, d') => (StopIteration, gen_moved g GenClosed, d')
    | (Raise e, d') => (Throw e, gen_moved g GenClosed, d')
    end in
  match gen_state g with
  | GenCreated => resume (read_iter_body g)
  | GenSuspended => resume read_iter_while
  | GenClosed => (StopIteration, g, d)
  end.

(** The result of consuming a sequence of frames: what was produced, the
    exception that interrupted it (if any), and the object afterwards. *)
Record drained := mkDrained {
  frames : list DataFrame;
  interrupted : option exn;
  final : Dataset
}.

(** [for df in g: frames.append(df)], with [fuel] bounding the number of
    [next] calls; [None] when the bound is reached. *)
Fixpoint exhaust (fuel : nat) (g : read_iter_generator) (acc : list DataFrame)
  (d : Dataset) : option drained :=
  match fuel with
  | O => None
  | S fuel' =>
      match read_iter_next g d with
      | (Yield df, g', d') => exhaust fuel' g' (acc ++ [df]) d'
      | (StopIteration, _, d') => Some (mkDrained acc None d')
      | (Throw e, _, d') => Some (mkDrained acc (Some e) d')
      end
  end.

Definition total_rows (l : list DataFrame) : nat :=
  foldr (fun df n => num_rows df + n) 0 l.

(** ** Write-side methods *)

Definition ascii_lower (c : ascii) : ascii :=
  let n := nat_of_ascii c in
  if (65 <=? n)%nat && (n <=? 90)%nat then ascii_of_nat (n + 32) else c.

(** Lower-casing of ASCII text, on which [str.lower] does the same; the
    paging engine below takes it for [str_lower]. *)
Fixpoint lower (s : string) : string :=
  match s with
  | EmptyString => EmptyString
  | String c rest => String (ascii_lower c) (lower rest)
  end.

Definition create_dataset (extra_attrs : option (list string))
  (tile_capacity anchor_gap : option Z) (checksum_type : option string)
  (allow_duplicates : bool) : M unit :=
  m ← self_mode;
  if negb (String.eqb m "w") then raise (PyException "Dataset not open in write mode")
  else
    writer_call (W_set_extra_attributes (join_or_empty extra_attrs)) ;;
    if_not_None tile_capacity (fun n => writer_call (W_set_tile_capacity n)) ;;
    if_not_None anchor_gap (fun n => writer_call (W_set_anchor_gap n)) ;;
    if_not_None checksum_type (fun c => writer_call (W_set_checksum (str_lower c))) ;;
    writer_call (W_set_allow_duplicates allow_duplicates) ;;
    writer_call W_create_dataset.

Definition schema_version : M Z :=
  m ← self_mode;
  if negb (String.eqb m "r")
  then writer_ask WQ_get_schema_version writer_get_schema_version
  else reader_ask Q_get_schema_version reader_get_schema_version.

Definition ingest_samples (sample_uris : option (list string))
  (threads memory_budget : option Z) (scratch_space_path : option string)
  (scratch_space_size sample_batch_size : option Z) : M unit :=
  m ← self_mode;
  if negb (String.eqb m "w") then raise (PyException "Dataset not open in write mode")
  else
    match sample_uris with
    | None => skip
    | Some sample_uris =>
        if_not_None threads (fun n => writer_call (W_set_num_threads n)) ;;
        if_not_None memory_budget (fun mb => writer_call (W_set_memory_budget mb)) ;;
        match scratch_space_path, scratch_space_size with
        | Some path, Some size => writer_call (W_set_scratch_space path size)
        | None, None => skip
        | _, _ =>
            raise (PyException
              "Must set both scratch_space_path and scratch_space_size to use scratch space")
        end ;;
        if_not_None sample_batch_size
          (fun n => writer_call (W_set_sample_batch_size n)) ;;
        writer_call (W_set_samples (join "," sample_uris)) ;;
        version ← schema_version;
        (if (version <? 4)%Z then writer_call W_register_samples else skip) ;;
        writer_call W_ingest_samples
    end.

(** ** Metadata *)

(** [self.reader.get_tiledb_stats_enabled] is read without being called:
    the test is on a bound method object, which is always true. *)
Definition get_tiledb_stats_enabled_attr : M bool := fun d =>
  match reader d with
  | None => (Raise (PyAttributeError "reader"), d)
  | Some _ => (Ok true, d)
  end.

Definition tiledb_stats : M string :=
  m ← self_mode;
  if negb (String.eqb m "r") then raise (PyException "Stats can only be called for reader")
  else
    enabled ← get_tiledb_stats_enabled_attr;
    if negb enabled then raise (PyException "Stats not enabled")
    else reader_ask Q_get_tiledb_stats reader_get_tiledb_stats.

Definition sample_count : M Z :=
  m ← self_mode;
  if negb (String.eqb m "r")
  then raise (PyException "Samples can only be retrieved for reader")
  else reader_ask Q_get_sample_count reader_get_sample_count.

Definition samples : M (list string) :=
  m ← self_mode;
  if negb (String.eqb m "r")
  then raise (PyException "Sample names can only be retrieved for reader")
  else reader_ask Q_get_sample_names reader_get_sample_names.

Definition _queryable_attrs : M (list string) :=
  reader_ask Q_get_queryable_attributes reader_get_queryable_attributes.

Definition _fmt_attrs : M (list string) :=
  reader_ask Q_get_fmt_attributes reader_get_fmt_attributes.

Definition _info_attrs : M (list string) :=
  reader_ask Q_get_info_attributes reader_get_info_attributes.

Definition attr_types : list string := ["all"; "info"; "fmt"; "builtin"].

Definition comb_attrs : list string := ["info"; "fmt"].

Definition attributes (attr_type : string) : M (list string) :=
  m ← self_mode;
  if negb (String.eqb m "r")
  then raise (PyException "Attributes can only be retrieved in read mode")
  else if negb (str_in attr_type attr_types) then
    msg ← lift (percent_format "Invalid attribute type. Must be one of: %s" attr_types);
    raise (PyValueError msg)
  else if String.eqb attr_type "info" then _info_attrs
  else if String.eqb attr_type "fmt" then _fmt_attrs
  else
    queryable ← _queryable_attrs;
    let attrs : gset string := list_to_set queryable ∖ list_to_set comb_attrs in
    if String.eqb attr_type "builtin" then
      info ← _info_attrs;
      fmt ← _fmt_attrs;
      mret (sorted_list (attrs ∖ list_to_set (info ++ fmt)))
    else mret (sorted_list attrs).

End Session.

(** ** A paging engine

    Concrete sessions need a concrete engine behind them. *)

Inductive read_status :=
| StatusConfigured
| StatusMidRead
| StatusCompleted.

Record paging_reader := mkPagingReader {
  pr_pending : list nat;
  pr_buffer : list nat;
  pr_status : read_status
}.

(** Modelled from the spec: the storage engine behind [libtiledbvcf] is not
    part of this module.  This stand-in follows the spec's read session
    state machine: a handle is [configured] after construction and after
    [reset]; one read unit returns at most [capacity] of the matching
    records and leaves the handle [mid-read] while records remain,
    [completed] otherwise; only [reset] leaves [completed].  [rows] are the
    matching records, [version] the schema version; the writer handle keeps
    the commands it received. *)
Definition paging_exec (rows : list nat) (capacity : nat) (c : reader_cmd)
  (r : paging_reader) : paging_reader :=
  match c with
  | R_reset => mkPagingReader rows [] StatusConfigured
  | R_read =>
      let pending := drop capacity (pr_pending r) in
      mkPagingReader pending (take capacity (pr_pending r))
        (match pending with
         | [] => StatusCompleted
         | _ :: _ => StatusMidRead
         end)
  | _ => r
  end.

Definition paging_completed (r : paging_reader) : bool :=
  match pr_status r with
  | StatusCompleted => true
  | _ => false
  end.

Definition paging_engine (rows : list nat) (capacity : nat) (version : Z)
  : Environment := {|
  Reader := paging_reader;
  Writer := list writer_cmd;
  ArrowTable := list nat;
  DataFrame := list nat;
  Reader_new := mkPagingReader rows [] StatusConfigured;
  reader_exec := paging_exec rows capacity;
  reader_completed := paging_completed;
  reader_get_results_arrow := pr_buffer;
  reader_result_num_records := fun r => Z.of_nat (length (pr_buffer r));
  reader_get_queryable_attributes := fun _ =>
    ["sample_name"; "contig"; "pos_start"; "info"; "fmt"; "info_DP"; "fmt_GT";
     "alleles"; "fmt_GT"];
  reader_get_fmt_attributes := fun _ => ["fmt_GT"];
  reader_get_info_attributes := fun _ => ["info_DP"];
  reader_get_sample_names := fun _ => ["A"; "B"; "C"];
  reader_get_sample_count := fun _ => 3%Z;
  reader_get_schema_version := fun _ => version;
  reader_get_tiledb_stats := fun _ => "";
  Writer_new := [];
  writer_exec := fun c w => w ++ [c];
  writer_get_schema_version := fun _ => version;
  to_pandas := fun t => t;
  num_rows := fun df => length df;
  str_lower := lower;
  tiledb_importable := false
|}.

(** The same environment with the [tiledb] package installed. *)
Definition with_tiledb (E : Environment) : Environment := {|
  Reader := @Reader E;
  Writer := @Writer E;
  ArrowTable := @ArrowTable E;
  DataFrame := @DataFrame E;
  Reader_new := @Reader_new E;
  reader_exec := @reader_exec E;
  reader_completed := @reader_completed E;
  reader_get_results_arrow := @reader_get_results_arrow E;
  reader_result_num_records := @reader_result_num_records E;
  reader_get_queryable_attributes := @reader_get_queryable_attributes E;
  reader_get_fmt_attributes := @reader_get_fmt_attributes E;
  reader_get_info_attributes := @reader_get_info_attributes E;
  reader_get_sample_names := @reader_get_sample_names E;
  reader_get_sample_count := @reader_get_sample_count E;
  reader_get_schema_version := @reader_get_schema_version E;
  reader_get_tiledb_stats := @reader_get_tiledb_stats E;
  Writer_new := @Writer_new E;
  writer_exec := @writer_exec E;
  writer_get_schema_version := @writer_get_schema_version E;
  to_pandas := @to_pandas E;
  num_rows := @num_rows E;
  str_lower := @str_lower E;
  tiledb_importable := true
|}.

(** Ten matching records, at most four per read unit, schema version 4. *)
Definition ten_by_four : Environment := paging_engine (seq 0 10) 4 4.

(** ** Failure taxonomy

    The module raises plain [Exception], [TypeError] and [ValueError]; the
    design document names the failures by kind.  [failure_of] reads the
    kind off the exception class and message. *)

Inductive failure :=
| InvalidMode
| ConflictingSelection
| IncompleteScratchConfig
| InvalidArgument
| InconsistentState.

Definition invalid_mode_messages : list string :=
  ["Dataset not open in read mode";
   "Dataset not open in write mode";
   "Stats can only be called for reader";
   "Samples can only be retrieved for reader";
   "Sample names can only be retrieved for reader";
   "Attributes can only be retrieved in read mode"].

Definition conflicting_selection_message : string :=
  "Argument 'samples' not allowed with 'samples_file'. " +:+
  "Only one of these two arguments can be passed at a time.".

Definition incomplete_scratch_message : string :=
  "Must set both scratch_space_path and scratch_space_size to use scratch space".

Definition inconsistent_state_message : string :=
  "Unexpected read status during count.".

Definition failure_of (e : exn) : option failure :=
  match e with
  | PyException msg =>
      if str_in msg invalid_mode_messages then Some InvalidMode
      else if String.eqb msg incomplete_scratch_message then Some IncompleteScratchConfig
      else if String.eqb msg inconsistent_state_message then Some InconsistentState
      else None
  | PyTypeError msg =>
      if String.eqb msg conflicting_selection_message then Some ConflictingSelection
      else None
  | PyValueError _ => Some InvalidArgument
  | PyAttributeError _ => None
  | PyKeyError _ => None
  end.

(** ** Observations on the record of engine calls *)

Definition is_read_unit (c : engine_call) : bool :=
  match c with
  | ReaderCmd R_read => true
  | _ => false
  end.

Definition is_attribute_projection (c : engine_call) : bool :=
  match c with
  | ReaderCmd (R_set_attributes _) => true
  | _ => false
  end.

Definition is_selection (c : engine_call) : bool :=
  match c with
  | ReaderCmd (R_set_samples _) | ReaderCmd (R_set_samples_file _)
  | ReaderCmd (R_set_regions _) | ReaderCmd (R_set_bed_file _)
  | ReaderCmd (R_set_attributes _) => true
  | _ => false
  end.

Definition is_tiledb_config_call (c : engine_call) : bool :=
  match c with
  | ReaderCmd (R_set_tiledb_config _) | WriterCmd (W_set_tiledb_config _) => true
  | _ => false
  end.

Definition is_ingest_call (c : engine_call) : bool :=
  match c with
  | WriterCmd W_ingest_samples => true
  | _ => false
  end.

Definition read_units (l : list engine_call) : nat := length (filter is_read_unit l).

Section Clients.
Context `{E : Environment}.

(** The calls made between two states of the same object. *)
Definition calls_since (before after : Dataset) : list engine_call :=
  drop (length (engine_log before)) (engine_log after).

(** The object with further calls on record and nothing else changed. *)
Definition logged (d : Dataset) (calls : list engine_call) : Dataset :=
  mkDataset (uri d) (mode d) (cfg d) (reader d) (writer d) (engine_log d ++ calls).

(** The object after its reader handle moved to [r] with [calls] on record. *)
Definition with_reader (d : Dataset) (r : Reader) (calls : list engine_call) : Dataset :=
  mkDataset (uri d) (mode d) (cfg d) (Some r) (writer d) (engine_log d ++ calls).

Definition with_writer (d : Dataset) (w : Writer) (calls : list engine_call) : Dataset :=
  mkDataset (uri d) (mode d) (cfg d) (reader d) (Some w) (engine_log d ++ calls).

(** *** The manual pagination loop

    What a caller writes without the generator:
    [[
      frames = [ds.read(attrs, samples, regions, samples_file, bed_file)]
      while not ds.read_completed():
          frames.append(ds.continue_read())
    ]]
    [fuel] bounds the number of tests of the loop condition. *)
Fixpoint manual_continue (fuel : nat) (acc : list DataFrame) (d : Dataset)
  : option drained :=
  match fuel with
  | O => None
  | S fuel' =>
      match read_completed d with
      | (Raise e, d') => Some (mkDrained acc (Some e) d')
      | (Ok true, d') => Some (mkDrained acc None d')
      | (Ok false, d') =>
          match continue_read d' with
          | (Raise e, d'') => Some (mkDrained acc (Some e) d'')
          | (Ok df, d'') => manual_continue fuel' (acc ++ [df]) d''
          end
      end
  end.

Definition manual_read_loop (fuel : nat) (attrs : list string)
  (samples regions : option (list string)) (samples_file bed_file : option string)
  (d : Dataset) : option drained :=
  match read attrs samples regions samples_file bed_file d with
  | (Raise e, d') => Some (mkDrained [] (Some e) d')
  | (Ok df, d') => manual_continue fuel [df] d'
  end.

(** The object without its ghost record. *)
Definition unlogged (d : Dataset) : Dataset :=
  mkDataset (uri d) (mode d) (cfg d) (reader d) (writer d) [].

(** A drained sequence without the ghost record: the frames, the
    interrupting exception and the attributes of the object. *)
Definition outcome_of (r : drained) : list DataFrame * option exn * Dataset :=
  (frames r, interrupted r, unlogged (final r)).

(** What a caller learns from a drained sequence: the total row count and
    what [read_completed()] answers afterwards. *)
Definition observed (r : drained) : nat * outcome bool :=
  (total_rows (frames r), fst (read_completed (final r))).

(** [n] further read units suffice for the handle to report completion. *)
Fixpoint completes_within (n : nat) (r : Reader) : bool :=
  reader_completed r ||
  match n with
  | O => false
  | S n' => completes_within n' (reader_exec R_read r)
  end.

(** *** The public operations, as one type *)

Inductive operation :=
| Op_read (attrs : list string) (samples regions : option (list string))
    (samples_file bed_file : option string)
| Op_continue_read
| Op_read_completed
| Op_read_iter (attrs : list string) (samples regions : option (list string))
    (samples_file bed_file : option string)
| Op_count (samples regions : option (list string))
| Op_attributes (attr_type : string)
| Op_samples
| Op_sample_count
| Op_schema_version
| Op_tiledb_stats
| Op_create_dataset (extra_attrs : option (list string))
    (tile_capacity anchor_gap : option Z) (checksum_type : option string)
    (allow_duplicates : bool)
| Op_ingest_samples (sample_uris : option (list string))
    (threads memory_budget : option Z) (scratch_space_path : option string)
    (scratch_space_size sample_batch_size : option Z).

Definition is_read_side (op : operation) : bool :=
  match op with
  | Op_create_dataset _ _ _ _ _ | Op_ingest_samples _ _ _ _ _ _ => false
  | _ => true
  end.

Definition is_write_side (op : operation) : bool := negb (is_read_side op).

(** The exception an invocation ends with, if any, and the object after
    it.  [read_iter] is invoked and advanced once, since creating the
    generator alone runs nothing. *)
Definition forget {A} (res : outcome A * Dataset) : option exn * Dataset :=
  (raised (fst res), snd res).

Definition invoke (op : operation) (d : Dataset) : option exn * Dataset :=
  match op with
  | Op_read attrs samples regions samples_file bed_file =>
      forget (read attrs samples regions samples_file bed_file d)
  | Op_continue_read => forget (continue_read d)
  | Op_read_completed => forget (read_completed d)
  | Op_read_iter attrs samples regions samples_file bed_file =>
      match read_iter_next (read_iter attrs samples regions samples_file bed_file) d with
      | (Throw e, _, d') => (Some e, d')
      | (_, _, d') => (None, d')
      end
  | Op_count samples regions => forget (count samples regions d)
  | Op_attributes attr_type => forget (attributes attr_type d)
  | Op_samples => forget (samples d)
  | Op_sample_count => forget (sample_count d)
  | Op_schema_version => forget (schema_version d)
  | Op_tiledb_stats => forget (tiledb_stats d)
  | Op_create_dataset extra_attrs tile_capacity anchor_gap checksum_type
      allow_duplicates =>
      forget (create_dataset extra_attrs tile_capacity anchor_gap checksum_type
                allow_duplicates d)
  | Op_ingest_samples sample_uris threads memory_budget scratch_space_path
      scratch_space_size sample_batch_size =>
      forget (ingest_samples sample_uris threads memory_budget scratch_space_path
                scratch_space_size sample_batch_size d)
  end.

(** *** Engine overrides

    What the module's loop collects from a mapping, in the terms of the
    code. *)
Definition key_value_entries (c : pydict) : list string :=
  map (fun kv => format_key_value (fst kv) (snd kv))
    (filter (fun kv => ne_empty_str (snd kv) = true) c).

(** The design document's wording, spelled out on the values themselves: a
    list is taken as given; a mapping contributes one [key=value] entry per
    key whose value is not the empty string, in order; an external
    configuration object is read the same way when the [tiledb] package is
    there, and contributes nothing otherwise. *)
Definition mapping_entries (c : pydict) : list string :=
  map (fun kv => fst kv +:+ "=" +:+ py_str (snd kv))
    (List.filter (fun kv => match snd kv with
                            | PStr s => negb (String.eqb s "")
                            | _ => true
                            end) c).

Definition nonempty_entries (c : list (string * string)) : list string :=
  map (fun kv => fst kv +:+ "=" +:+ snd kv)
    (List.filter (fun kv => negb (String.eqb (snd kv) "")) c).

Definition normalized_overrides (v : tiledb_config_value) : string :=
  String.concat ","
    (match v with
     | CfgList l => l
     | CfgDict c => mapping_entries c
     | CfgTiledbConfig c => if tiledb_importable then nonempty_entries c else []
     | CfgOther => []
     end).

(** The calls [_set_read_cfg] makes for the five scalar fields, in the
    order it makes them. *)
Definition scalar_overrides (c : ReadConfig) : list reader_cmd :=
  option_list (R_set_max_num_records <$> limit c) ++
  option_list ((fun p => R_set_region_partition (fst p) (snd p)) <$> region_partition c) ++
  option_list ((fun p => R_set_sample_partition (fst p) (snd p)) <$> sample_partition c) ++
  option_list (R_set_sort_regions <$> sort_regions c) ++
  option_list (R_set_memory_budget <$> memory_budget_mb c).

(** A reader handle after a series of commands. *)
Definition reader_after (cmds : list reader_cmd) (r : Reader) : Reader :=
  foldl (fun r c => reader_exec c r) r cmds.

(** A writer handle after a series of commands. *)
Definition writer_after (cmds : list writer_cmd) (w : Writer) : Writer :=
  foldl (fun w c => writer_exec c w) w cmds.

(** Exactly one of two optional arguments is given. *)
Definition exactly_one {A B} (x : option A) (y : option B) : Prop :=
  is_not_None x <> is_not_None y.

(** A method body that never assigns [self.mode]. *)
Definition keeps_mode {A} (m : M A) : Prop :=
  forall d, mode (snd (m d)) = mode d.

(** Keys of a mapping are pairwise distinct. *)
Definition well_formed_config (v : tiledb_config_value) : Prop :=
  match v with
  | CfgDict c => NoDup (dict_keys c)
  | CfgTiledbConfig c => NoDup (map fst c)
  | _ => True
  end.

(** *** Sessions as the constructor leaves them *)

(** A reading session has a reader handle and no writer attribute, a
    writing session the converse. *)
Definition well_formed (d : Dataset) : Prop :=
  (mode d = "r" /\ is_not_None (reader d) = true /\ writer d = None)
  \/ (mode d = "w" /\ is_not_None (writer d) = true /\ reader d = None).

(** The object after a series of invocations, whatever each returned or
    raised. *)
Definition after (ops : list operation) (d : Dataset) : Dataset :=
  foldl (fun d op => snd (invoke op d)) d ops.

(** The string [set_tiledb_config] receives for a [tiledb_config] value. *)
Definition override_csv (v : tiledb_config_value) : string :=
  match tiledb_config_list v with
  | Ok l => join "," l
  | Raise _ => ""
  end.

(** The commands [_set_read_cfg] and [_set_write_cfg] issue. *)
Definition read_cfg_commands (cfg : option ReadConfig) : list reader_cmd :=
  match cfg with
  | None => []
  | Some c =>
      scalar_overrides c ++
      option_list ((fun v => R_set_tiledb_config (override_csv v)) <$> tiledb_config c)
  end.

Definition write_cfg_commands (cfg : option ReadConfig) : list writer_cmd :=
  match cfg with
  | None => []
  | Some c =>
      option_list ((fun v => W_set_tiledb_config (override_csv v)) <$> tiledb_config c)
  end.

Definition is_config_override (c : engine_call) : bool :=
  match c with
  | ReaderCmd (R_set_max_num_records _) | ReaderCmd (R_set_region_partition _ _)
  | ReaderCmd (R_set_sample_partition _ _) | ReaderCmd (R_set_sort_regions _)
  | ReaderCmd (R_set_memory_budget _) | ReaderCmd (R_set_tiledb_config _)
  | WriterCmd (W_set_tiledb_config _) => true
  | _ => false
  end.

Definition is_query (c : engine_call) : bool :=
  match c with
  | ReaderQuery _ | WriterQuery _ => true
  | _ => false
  end.

(** The operations that only ask the engine. *)
Definition is_metadata (op : operation) : bool :=
  match op with
  | Op_read_completed | Op_attributes _ | Op_samples | Op_sample_count
  | Op_schema_version | Op_tiledb_stats => true
  | _ => false
  end.

(** *** The commands of one [read] *)

(** Both [samples] and [samples_file] given. *)
Definition conflicting (samples : option (list string)) (samples_file : option string)
  : bool :=
  is_not_None samples && is_not_None samples_file.

(** What [_set_samples] sends when it does not raise. *)
Definition sample_selection (samples : option (list string))
  (samples_file : option string) : list reader_cmd :=
  match samples, samples_file with
  | Some s, _ => [R_set_samples (join "," s)]
  | None, Some f => [R_set_samples ""; R_set_samples_file f]
  | None, None => []
  end.

Definition read_commands (attrs : list string) (samples regions : option (list string))
  (samples_file bed_file : option string) : list reader_cmd :=
  [R_reset] ++ sample_selection samples samples_file ++
  [R_set_regions (join_or_empty regions); R_set_attributes attrs] ++
  option_list (R_set_bed_file <$> bed_file) ++ [R_read].

(** *** The commands of the write side *)

Definition create_commands (extra_attrs : option (list string))
  (tile_capacity anchor_gap : option Z) (checksum_type : option string)
  (allow_duplicates : bool) : list writer_cmd :=
  [W_set_extra_attributes (from_option (String.concat ",") "" extra_attrs)] ++
  option_list (W_set_tile_capacity <$> tile_capacity) ++
  option_list (W_set_anchor_gap <$> anchor_gap) ++
  option_list ((fun c => W_set_checksum (str_lower c)) <$> checksum_type) ++
  [W_set_allow_duplicates allow_duplicates; W_create_dataset].

(** The settings [ingest_samples] sends before it asks for the schema
    version, when the scratch space is given in full or not at all. *)
Definition ingest_settings (sample_uris : list string) (threads memory_budget : option Z)
  (scratch_space_path : option string) (scratch_space_size sample_batch_size : option Z)
  : list writer_cmd :=
  option_list (W_set_num_threads <$> threads) ++
  option_list (W_set_memory_budget <$> memory_budget) ++
  match scratch_space_path, scratch_space_size with
  | Some path, Some size => [W_set_scratch_space path size]
  | _, _ => []
  end ++
  option_list (W_set_sample_batch_size <$> sample_batch_size) ++
  [W_set_samples (String.concat "," sample_uris)].

End Clients.

(** ** Concrete sessions over the paging engine *)

(** [Dataset("vcf", "r")] *)
Definition fresh_reader_session : Dataset (E := ten_by_four) :=
  snd (Dataset_new (E := ten_by_four) "vcf" "r" None false false).

(** [Dataset("vcf", "w")] *)
Definition fresh_writer_session : Dataset (E := ten_by_four) :=
  snd (Dataset_new (E := ten_by_four) "vcf" "w" None false false).

(** The reading session after [ds.read(["pos_start"])]: four of the ten
    records delivered. *)
Definition mid_read_session : Dataset (E := ten_by_four) :=
  snd (read (E := ten_by_four) ["pos_start"] None None None None fresh_reader_session).

(** The reading session after [list(ds.read_iter(["pos_start"]))]. *)
Definition drained_session : Dataset (E := ten_by_four) :=
  match exhaust (E := ten_by_four) 4 (read_iter ["pos_start"] None None None None) []
          fresh_reader_session with
  | Some r => final r
  | None => fresh_reader_session
  end.

(** A reading session over a dataset small enough for one read unit. *)
Definition small_reader_session : Dataset (E := paging_engine (seq 0 7) 8 4) :=
  snd (Dataset_new (E := paging_engine (seq 0 7) 8 4) "vcf" "r" None false false).

(** A reading object with its handle created and nothing configured yet,
    where the [tiledb] package is installed. *)
Definition unconfigured_reader_with_tiledb : Dataset (E := with_tiledb ten_by_four) :=
  mkDataset (E := with_tiledb ten_by_four) "vcf" "r" None
    (Some (mkPagingReader (seq 0 10) [] StatusConfigured)) None [NewReader].

(** A writing session over a dataset of schema version 3. *)
Definition old_schema_writer_session : Dataset (E := paging_engine (seq 0 10) 4 3) :=
  snd (Dataset_new (E := paging_engine (seq 0 10) 4 3) "vcf" "w" None false false).

(** What [list(ds.read_iter(["pos_start"]))] collects on a fresh reading
    session. *)
Definition drained_result : drained (E := ten_by_four) :=
  mkDrained (E := ten_by_four) [[0; 1; 2; 3]; [4; 5; 6; 7]; [8; 9]] None drained_session.

(** * Properties *)

Section Properties.
Context `{E : Environment}.

(** Unfolds the monad and the engine-call primitives, leaving a term in
    the fields of the object. *)
Ltac run_method :=
  unfold mbind, M_bind, mret, M_ret, raise, lift, skip, self_mode, if_not_None,
    reader_call, reader_ask, writer_call, writer_ask in *;
  cbn in *.

(** Opens the object into its fields and substitutes what is known of them. *)
Ltac open_object d :=
  destruct d as [? ? ? ? ? ?]; cbn [uri mode cfg reader writer engine_log] in *; subst.

Lemma calls_since_logged (d : Dataset) (calls : list engine_call) :
  calls_since d (logged d calls) = calls.
Proof. unfold calls_since, logged; cbn. apply drop_app_length. Qed.

Lemma calls_since_with_reader (d : Dataset) (r : Reader) (calls : list engine_call) :
  calls_since d (with_reader d r calls) = calls.
Proof. unfold calls_since, with_reader; cbn. apply drop_app_length. Qed.

Lemma calls_since_with_writer (d : Dataset) (w : Writer) (calls : list engine_call) :
  calls_since d (with_writer d w calls) = calls.
Proof. unfold calls_since, with_writer; cbn. apply drop_app_length. Qed.

Lemma logged_nil (d : Dataset) : logged d [] = d.
Proof. destruct d; unfold logged; cbn. by rewrite app_nil_r. Qed.

(** ** Construction *)

(** C10.  Constructing a session with a mode other than ["r"] and ["w"]
    raises [Exception("Unsupported dataset mode <mode>")]; the object left
    behind has neither a reader nor a writer handle and no call has
    crossed the engine boundary. *)
Theorem init_unsupported_mode (uri mode : string) (cfg : option ReadConfig)
  (stats verbose : bool) :
  mode <> "r" -> mode <> "w" ->
  Dataset_new uri mode cfg stats verbose =
    (Raise (PyException ("Unsupported dataset mode " +:+ mode)),
     mkDataset uri mode cfg None None [])
  /\ engine_log (snd (Dataset_new uri mode cfg stats verbose)) = [].
Proof.
  intros Hr Hw.
  apply String.eqb_neq in Hr, Hw.
  assert (Dataset_new uri mode cfg stats verbose =
    (Raise (PyException ("Unsupported dataset mode " +:+ mode)),
     mkDataset uri mode cfg None None [])) as ->; [|done].
  unfold Dataset_new, __init__, object_new, assign_uri, assign_mode, assign_cfg.
  run_method. by rewrite Hr, Hw.
Qed.

(** ** Configuration translation *)

Lemma dict_get_app_fresh (pre rest : pydict) (k : string) :
  k ∉ dict_keys pre -> dict_get (pre ++ rest) k = dict_get rest k.
Proof.
  induction pre as [|[k' v'] pre IH]; cbn; [done|].
  intros Hk. apply not_elem_of_cons in Hk as [Hne Hk].
  destruct (String.eqb_spec k' k); [congruence|]. by apply IH.
Qed.

Lemma append_config_items_suffix (pre rest : pydict) (lst : list string) :
  NoDup (dict_keys (pre ++ rest)) ->
  append_config_items (pre ++ rest) (dict_keys rest) lst =
    Ok (lst ++ key_value_entries rest).
Proof.
  revert pre lst. induction rest as [|[k v] rest IH]; intros pre lst Hnd.
  - cbn. by rewrite app_nil_r.
  - cbn [dict_keys map fst append_config_items].
    assert (k ∉ dict_keys pre) as Hk.
    { unfold dict_keys in *. rewrite map_app in Hnd.
      apply NoDup_app in Hnd as (_ & Hdisj & _).
      intros Hin. apply (Hdisj k Hin). cbn. left. }
    rewrite (dict_get_app_fresh pre ((k, v) :: rest) k Hk).
    cbn [dict_get]. rewrite String.eqb_refl.
    specialize (IH (pre ++ [(k, v)])).
    rewrite <- app_assoc in IH. cbn [app] in IH.
    unfold key_value_entries. rewrite filter_cons. cbn [snd fst].
    destruct (ne_empty_str v) eqn:Hv.
    + rewrite decide_True by done. cbn [map fst snd].
      rewrite (IH _ Hnd). unfold key_value_entries.
      by rewrite <- app_assoc.
    + rewrite decide_False by done.
      by rewrite (IH _ Hnd).
Qed.

Lemma append_config_items_all (c : pydict) :
  NoDup (dict_keys c) ->
  append_config_items c (dict_keys c) [] = Ok (key_value_entries c).
Proof. intros Hnd. exact (append_config_items_suffix [] c [] Hnd). Qed.

Lemma tiledb_Config_items_keys (c : list (string * string)) :
  dict_keys (tiledb_Config_items c) = map fst c.
Proof.
  unfold dict_keys, tiledb_Config_items. rewrite map_map. done.
Qed.

(** The list that reaches [",".join] is the one the design document
    describes. *)
Lemma key_value_entries_mapping (c : pydict) :
  key_value_entries c = mapping_entries c.
Proof.
  unfold key_value_entries, mapping_entries.
  induction c as [|[k v] c IH]; [done|].
  rewrite filter_cons. cbn [List.filter snd fst].
  destruct v as [s|n|b]; cbn [ne_empty_str].
  - destruct (negb (String.eqb s "")).
    + rewrite decide_True by done. cbn [map fst snd]. by rewrite IH.
    + by rewrite decide_False by done.
  - rewrite decide_True by done. cbn [map fst snd]. by rewrite IH.
  - rewrite decide_True by done. cbn [map fst snd]. by rewrite IH.
Qed.

Lemma key_value_entries_Config (c : list (string * string)) :
  key_value_entries (tiledb_Config_items c) = nonempty_entries c.
Proof.
  unfold key_value_entries, nonempty_entries, tiledb_Config_items.
  induction c as [|[k v] c IH]; [done|].
  cbn [map fst snd]. rewrite filter_cons. cbn [List.filter snd fst ne_empty_str].
  destruct (negb (String.eqb v "")).
  - rewrite decide_True by done. cbn [map fst snd]. by rewrite IH.
  - by rewrite decide_False by done.
Qed.

Lemma tiledb_config_list_normalized (v : tiledb_config_value) :
  well_formed_config v ->
  exists l, tiledb_config_list v = Ok l /\ join "," l = normalized_overrides v.
Proof.
  destruct v as [l|c|c|]; cbn [well_formed_config tiledb_config_list]; intros Hwf.
  - by exists l.
  - exists (key_value_entries c). rewrite append_config_items_all by done.
    split; [done|]. unfold normalized_overrides. by rewrite key_value_entries_mapping.
  - unfold normalized_overrides. destruct tiledb_importable.
    + exists (key_value_entries (tiledb_Config_items c)).
      rewrite append_config_items_all by (by rewrite tiledb_Config_items_keys).
      split; [done|]. by rewrite key_value_entries_Config.
    + by exists [].
  - by exists [].
Qed.


(** ** Reading *)

(** C4.  With both [samples] and [samples_file] given, [read] raises the
    [TypeError] of [_set_samples] whatever the other arguments are.  By
    then the engine has seen [reset()] and nothing else: no sample, region,
    attribute or BED selection. *)
Theorem read_conflicting_selection (d : Dataset) (r : Reader) (attrs : list string)
  (samples : list string) (regions : option (list string)) (samples_file : string)
  (bed_file : option string) :
  mode d = "r" -> reader d = Some r ->
  read attrs (Some samples) regions (Some samples_file) bed_file d =
    (Raise (PyTypeError conflicting_selection_message),
     with_reader d (reader_exec R_reset r) [ReaderCmd R_reset])
  /\ failure_of (PyTypeError conflicting_selection_message) = Some ConflictingSelection
  /\ filter is_selection
       (calls_since d
          (snd (read attrs (Some samples) regions (Some samples_file) bed_file d))) = [].
Proof.
  intros Hm Hr.
  assert (read attrs (Some samples) regions (Some samples_file) bed_file d =
    (Raise (PyTypeError conflicting_selection_message),
     with_reader d (reader_exec R_reset r) [ReaderCmd R_reset])) as ->.
  { open_object d. unfold read, _set_samples, with_reader. run_method. done. }
  cbn [snd]. rewrite calls_since_with_reader. done.
Qed.

(** C3.  On a reading session [count] resets the handle, sets the sample
    and the region selection (the caller's names joined by commas, the
    empty string when unset), runs one read unit and asks whether it is
    complete; it sets no attribute projection.  If the engine answers no
    it raises [Exception("Unexpected read status during count.")],
    otherwise it returns the engine's record count. *)
Theorem count_single_unit (d : Dataset) (r : Reader)
  (samples regions : option (list string)) :
  mode d = "r" -> reader d = Some r ->
  let csv := from_option (String.concat ",") "" in
  let cmds := [R_reset; R_set_samples (csv samples); R_set_regions (csv regions);
               R_read] in
  let r' := reader_after cmds r in
  let calls := (ReaderCmd <$> cmds) ++ [ReaderQuery Q_completed] ++
               (if reader_completed r' then [ReaderQuery Q_result_num_records] else []) in
  count samples regions d =
    ((if reader_completed r' then Ok (reader_result_num_records r')
      else Raise (PyException inconsistent_state_message)),
     with_reader d r' calls)
  /\ read_units calls = 1
  /\ filter is_attribute_projection calls = []
  /\ failure_of (PyException inconsistent_state_message) = Some InconsistentState.
Proof.
  intros Hm Hr csv cmds r' calls. subst calls r' cmds csv.
  split; [|destruct (reader_completed _); done].
  open_object d. unfold count, read_completed, with_reader, reader_after.
  run_method.
  destruct samples, regions; cbn;
    destruct (reader_completed _) eqn:Hc; cbn; rewrite <- ?app_assoc; done.
Qed.

(** ** Pagination *)

Lemma read_completed_reading (d : Dataset) (r : Reader) :
  mode d = "r" -> reader d = Some r ->
  read_completed d = (Ok (reader_completed r), logged d [ReaderQuery Q_completed]).
Proof. intros Hm Hr. open_object d. unfold read_completed, logged. by run_method. Qed.

Lemma continue_read_reading (d : Dataset) (r : Reader) :
  mode d = "r" -> reader d = Some r ->
  continue_read d =
    (Ok (to_pandas (reader_get_results_arrow (reader_exec R_read r))),
     with_reader d (reader_exec R_read r)
       [ReaderCmd R_read; ReaderQuery Q_get_results_arrow]).
Proof.
  intros Hm Hr. open_object d. unfold continue_read, with_reader. run_method.
  by rewrite <- app_assoc.
Qed.

Lemma read_iter_while_reading (d : Dataset) (r : Reader) :
  mode d = "r" -> reader d = Some r ->
  read_iter_while d =
    if reader_completed r then (Ok None, logged d [ReaderQuery Q_completed])
    else (let (o, d') := continue_read (logged d [ReaderQuery Q_completed]) in
          (outcome_map Some o, d')).
Proof.
  intros Hm Hr. unfold read_iter_while.
  unfold mbind at 1, M_bind. rewrite (read_completed_reading d r Hm Hr).
  destruct (reader_completed r); [done|]. cbn [negb].
  unfold mbind, M_bind, mret, M_ret.
  by destruct (continue_read _) as [[df|e] d'].
Qed.

Lemma read_iter_body_reading (d : Dataset) (r : Reader) (g : read_iter_generator) :
  mode d = "r" -> reader d = Some r ->
  read_iter_body g d =
    if reader_completed r
    then (Ok None, logged d [ReaderQuery Q_completed; ReaderQuery Q_completed])
    else (let (o, d') :=
            read (gen_attrs g) (gen_samples g) (gen_regions g) (gen_samples_file g)
              (gen_bed_file g) (logged d [ReaderQuery Q_completed]) in
          (outcome_map Some o, d')).
Proof.
  intros Hm Hr. unfold read_iter_body.
  unfold mbind at 1, M_bind, self_mode. rewrite Hm.
  cbn [negb String.eqb Ascii.eqb Bool.eqb].
  unfold mbind at 1, M_bind. rewrite (read_completed_reading d r Hm Hr).
  destruct (reader_completed r) eqn:Hc; cbn [negb].
  - rewrite (read_iter_while_reading _ r) by done. rewrite Hc.
    unfold logged. cbn. by rewrite <- app_assoc.
  - unfold mbind, M_bind, mret, M_ret.
    by destruct (read _ _ _ _ _ _) as [[df|e] d'].
Qed.

(** C2, as the code has it.  On a reading session, the first [next] of
    [read_iter(...)] on a handle that is not completed produces what
    [read(...)] produces; a later [next] on a handle that is not completed
    produces what [continue_read()] produces; a [next] on a completed
    handle, the first one included, ends the sequence, and then the engine
    is only asked whether it is completed: no read unit runs and the
    handle is left as it was.  The generator is suspended after a [yield]
    and closed after anything else, and a closed generator stays closed
    whatever has become of the session. *)
Theorem read_iter_sequence (d : Dataset) (r : Reader) (attrs : list string)
  (samples regions : option (list string)) (samples_file bed_file : option string)
  (g : read_iter_generator) :
  mode d = "r" -> reader d = Some r ->
  let g0 := read_iter attrs samples regions samples_file bed_file in
  let asked := logged d [ReaderQuery Q_completed] in
  (reader_completed r = false ->
     read_iter_next g0 d =
       match read attrs samples regions samples_file bed_file asked with
       | (Ok df, d') => (Yield df, gen_moved g0 GenSuspended, d')
       | (Raise e, d') => (Throw e, gen_moved g0 GenClosed, d')
       end)
  /\ (reader_completed r = false -> gen_state g = GenSuspended ->
      exists df d', continue_read asked = (Ok df, d') /\
        read_iter_next g d = (Yield df, gen_moved g GenSuspended, d'))
  /\ (reader_completed r = true -> gen_state g = GenSuspended ->
      read_iter_next g d = (StopIteration, gen_moved g GenClosed, asked))
  /\ (reader_completed r = true ->
      read_iter_next g0 d =
        (StopIteration, gen_moved g0 GenClosed,
         logged d [ReaderQuery Q_completed; ReaderQuery Q_completed]))
  /\ (reader_completed r = true ->
      read_units (calls_since d (snd (read_iter_next g d))) = 0
      /\ reader (snd (read_iter_next g d)) = Some r)
  /\ (gen_state g = GenClosed -> read_iter_next g d = (StopIteration, g, d))
  /\ (forall ev g' d', read_iter_next g d = (ev, g', d') ->
      gen_state g' = match ev with Yield _ => GenSuspended | _ => GenClosed end).
Proof.
  intros Hm Hr g0 asked.
  assert (mode asked = "r") as Hm' by done.
  assert (reader asked = Some r) as Hr' by done.
  subst asked g0.
  repeat apply conj.
  - intros Hc. unfold read_iter_next. cbn [gen_state read_iter].
    rewrite (read_iter_body_reading d r _ Hm Hr), Hc. cbn.
    by destruct (read _ _ _ _ _ _) as [[df|e] d'].
  - intros Hc Hg. eexists _, _. split; [by apply continue_read_reading|].
    unfold read_iter_next. rewrite Hg, (read_iter_while_reading d r Hm Hr), Hc.
    by rewrite (continue_read_reading _ r Hm' Hr').
  - intros Hc Hg. unfold read_iter_next.
    by rewrite Hg, (read_iter_while_reading d r Hm Hr), Hc.
  - intros Hc. unfold read_iter_next. cbn [gen_state read_iter].
    by rewrite (read_iter_body_reading d r _ Hm Hr), Hc.
  - intros Hc. unfold read_iter_next. destruct (gen_state g).
    + rewrite (read_iter_body_reading d r _ Hm Hr), Hc. cbn [snd].
      by rewrite calls_since_logged.
    + rewrite (read_iter_while_reading d r Hm Hr), Hc. cbn [snd].
      by rewrite calls_since_logged.
    + cbn [snd]. unfold calls_since. by rewrite drop_all.
  - intros Hg. unfold read_iter_next. by rewrite Hg.
  - intros ev g' d'. unfold read_iter_next. destruct (gen_state g) eqn:Hg.
    + destruct (read_iter_body g d) as [[[df|]|e] d'']; by intros [= <- <- <-].
    + destruct (read_iter_while d) as [[[df|]|e] d'']; by intros [= <- <- <-].
    + by intros [= <- <- <-].
Qed.

(** *** The generator against the manual loop *)

Lemma unlogged_logged (d : Dataset) (calls : list engine_call) :
  unlogged (logged d calls) = unlogged d.
Proof. done. Qed.

(** Methods do not read the ghost record. *)
Ltac same_but_log d1 d2 Heq :=
  destruct d1 as [u1 m1 c1 r1 w1 l1], d2 as [u2 m2 c2 r2 w2 l2];
  unfold unlogged in Heq; cbn in Heq; injection Heq as -> -> -> -> ->.

Lemma read_completed_unlogged (d1 d2 : Dataset) :
  unlogged d1 = unlogged d2 ->
  fst (read_completed d1) = fst (read_completed d2)
  /\ unlogged (snd (read_completed d1)) = unlogged (snd (read_completed d2)).
Proof.
  intros Heq. same_but_log d1 d2 Heq.
  destruct (String.eqb_spec m2 "r") as [->|Hm].
  - unfold read_completed, unlogged. run_method. destruct r2; done.
  - apply String.eqb_neq in Hm. unfold read_completed, unlogged. run_method.
    by rewrite Hm.
Qed.

Lemma continue_read_unlogged (d1 d2 : Dataset) :
  unlogged d1 = unlogged d2 ->
  fst (continue_read d1) = fst (continue_read d2)
  /\ unlogged (snd (continue_read d1)) = unlogged (snd (continue_read d2)).
Proof.
  intros Heq. same_but_log d1 d2 Heq.
  destruct (String.eqb_spec m2 "r") as [->|Hm].
  - unfold continue_read, unlogged. run_method. destruct r2; done.
  - apply String.eqb_neq in Hm. unfold continue_read, unlogged. run_method.
    by rewrite Hm.
Qed.

Lemma read_unlogged (attrs : list string) (samples regions : option (list string))
  (samples_file bed_file : option string) (d1 d2 : Dataset) :
  unlogged d1 = unlogged d2 ->
  fst (read attrs samples regions samples_file bed_file d1) =
    fst (read attrs samples regions samples_file bed_file d2)
  /\ unlogged (snd (read attrs samples regions samples_file bed_file d1)) =
       unlogged (snd (read attrs samples regions samples_file bed_file d2)).
Proof.
  intros Heq. same_but_log d1 d2 Heq.
  destruct (String.eqb_spec m2 "r") as [->|Hm].
  - unfold read, continue_read, _set_samples, unlogged. run_method.
    destruct r2, samples, samples_file, bed_file; done.
  - apply String.eqb_neq in Hm. unfold read, unlogged. run_method.
    by rewrite Hm.
Qed.

Lemma manual_continue_unlogged (fuel : nat) (acc : list DataFrame) (d1 d2 : Dataset) :
  unlogged d1 = unlogged d2 ->
  outcome_of <$> manual_continue fuel acc d1 = outcome_of <$> manual_continue fuel acc d2.
Proof.
  revert acc d1 d2. induction fuel as [|fuel IH]; intros acc d1 d2 Heq; [done|].
  cbn [manual_continue].
  destruct (read_completed_unlogged d1 d2 Heq) as [Hres Hst].
  destruct (read_completed d1) as [o1 d1'], (read_completed d2) as [o2 d2'].
  cbn [fst snd] in Hres, Hst. subst o2.
  destruct o1 as [[]|e]; cbn; unfold outcome_of; cbn; [by rewrite Hst| |by rewrite Hst].
  destruct (continue_read_unlogged d1' d2' Hst) as [Hres' Hst'].
  destruct (continue_read d1') as [o1 d1''], (continue_read d2') as [o2 d2''].
  cbn [fst snd] in Hres', Hst'. subst o2.
  destruct o1 as [df|e]; [by apply IH|].
  cbn. unfold outcome_of; cbn. by rewrite Hst'.
Qed.

(** Past its first [yield] the generator is the manual loop. *)
Lemma exhaust_suspended (fuel : nat) (g : read_iter_generator) (acc : list DataFrame)
  (d : Dataset) :
  gen_state g = GenSuspended -> exhaust fuel g acc d = manual_continue fuel acc d.
Proof.
  revert g acc d. induction fuel as [|fuel IH]; intros g acc d Hg; [done|].
  cbn [exhaust manual_continue]. unfold read_iter_next. rewrite Hg.
  unfold read_iter_while, mbind, M_bind, mret, M_ret.
  destruct (read_completed d) as [[[]|e] d']; cbn [negb]; try done.
  destruct (continue_read d') as [[df|e] d'']; [|done].
  by apply IH.
Qed.

Lemma observed_outcome_of (r1 r2 : drained) :
  outcome_of r1 = outcome_of r2 -> observed r1 = observed r2.
Proof.
  unfold outcome_of, observed. intros Heq.
  assert (frames r1 = frames r2) as -> by congruence.
  f_equal. apply read_completed_unlogged. congruence.
Qed.

(** C1, as the code has it.  Unless [read_completed()] already answers
    true when the iteration starts, draining [read_iter(...)] and looping
    by hand over [read(...)] and [continue_read()] produce the same frames,
    stop on the same exception if any, and leave the same object; so the
    total row count and the final [read_completed()] agree.  [fuel + 1]
    calls of [next] correspond to [fuel] tests of the manual loop
    condition: either both runs end within their bound or neither does. *)
Theorem read_iter_matches_manual_loop (d : Dataset) (attrs : list string)
  (samples regions : option (list string)) (samples_file bed_file : option string)
  (fuel : nat) :
  fst (read_completed d) <> Ok true ->
  let by_iter :=
    exhaust (S fuel) (read_iter attrs samples regions samples_file bed_file) [] d in
  let by_hand := manual_read_loop fuel attrs samples regions samples_file bed_file d in
  outcome_of <$> by_iter = outcome_of <$> by_hand
  /\ observed <$> by_iter = observed <$> by_hand.
Proof.
  intros Hnot by_iter by_hand.
  assert (outcome_of <$> by_iter = outcome_of <$> by_hand) as Hsame.
  { subst by_iter by_hand. unfold manual_read_loop.
    cbn [exhaust]. unfold read_iter_next. cbn [gen_state read_iter].
    destruct (String.eqb_spec (mode d) "r") as [Hm|Hm].
    - destruct (reader d) as [r|] eqn:Hr.
      + rewrite (read_completed_reading d r Hm Hr) in Hnot. cbn [fst] in Hnot.
        rewrite (read_iter_body_reading d r _ Hm Hr).
        destruct (reader_completed r); [done|].
        cbn [gen_attrs gen_samples gen_regions gen_samples_file gen_bed_file].
        destruct (read_unlogged attrs samples regions samples_file bed_file
                    (logged d [ReaderQuery Q_completed]) d (unlogged_logged _ _))
          as [Hres Hst].
        destruct (read _ _ _ _ _ (logged _ _)) as [o1 d1],
                 (read _ _ _ _ _ d) as [o2 d2].
        cbn [fst snd] in Hres, Hst. subst o2.
        destruct o1 as [df|e]; cbn [outcome_map].
        * rewrite exhaust_suspended by done. cbn [app].
          by apply manual_continue_unlogged.
        * cbn. unfold outcome_of. cbn. by rewrite Hst.
      + clear Hnot. open_object d.
        unfold read_iter_body, read, read_completed. run_method. done.
    - clear Hnot. apply String.eqb_neq in Hm.
      destruct d as [u m c r w l]; cbn in Hm.
      unfold read_iter_body, read. run_method. by rewrite Hm. }
  split; [done|].
  clearbody by_iter by_hand.
  destruct by_iter as [r1|], by_hand as [r2|]; try done.
  cbn in Hsame |- *. f_equal. apply observed_outcome_of. by apply (inj Some).
Qed.

(** A paginated read ends: if [n] further read units bring the handle to
    completion, the loop stops within [n + 1] tests of its condition, with
    no exception and with [read_completed()] true. *)
Lemma paginated_read_terminates (n : nat) (d : Dataset) (r : Reader)
  (acc : list DataFrame) :
  mode d = "r" -> reader d = Some r -> completes_within n r = true ->
  exists res, manual_continue (S n) acc d = Some res
    /\ interrupted res = None
    /\ fst (read_completed (final res)) = Ok true.
Proof.
  revert d r acc. induction n as [|n IH]; intros d r acc Hm Hr Hn;
    cbn [manual_continue]; rewrite (read_completed_reading d r Hm Hr);
    cbn [completes_within] in Hn.
  - rewrite orb_false_r in Hn. rewrite Hn. eexists. repeat apply conj; [done..|].
    cbn [final]. rewrite (read_completed_reading _ r) by done. by rewrite Hn.
  - destruct (reader_completed r) eqn:Hc.
    + eexists. repeat apply conj; [done..|].
      cbn [final]. rewrite (read_completed_reading _ r) by done. by rewrite Hc.
    + cbn [orb] in Hn.
      rewrite (continue_read_reading _ r) by done.
      by apply (IH _ (reader_exec R_read r)).
Qed.

(** ** Ingestion *)

(** C7, as the code has it.  When [sample_uris] is given and exactly one
    of [scratch_space_path] and [scratch_space_size] is, [ingest_samples]
    raises [Exception("Must set both ...")] whatever the other arguments
    are.  The writer has then received at most the thread count and the
    memory budget, and no ingest call. *)
Theorem ingest_incomplete_scratch (d : Dataset) (w : Writer) (sample_uris : list string)
  (threads memory_budget : option Z) (scratch_space_path : option string)
  (scratch_space_size sample_batch_size : option Z) :
  mode d = "w" -> writer d = Some w ->
  exactly_one scratch_space_path scratch_space_size ->
  let cmds := option_list (W_set_num_threads <$> threads) ++
              option_list (W_set_memory_budget <$> memory_budget) in
  ingest_samples (Some sample_uris) threads memory_budget scratch_space_path
    scratch_space_size sample_batch_size d =
    (Raise (PyException incomplete_scratch_message),
     with_writer d (writer_after cmds w) (WriterCmd <$> cmds))
  /\ failure_of (PyException incomplete_scratch_message) = Some IncompleteScratchConfig
  /\ filter is_ingest_call (WriterCmd <$> cmds) = [].
Proof.
  intros Hm Hw Hone cmds. subst cmds.
  split; [|split; [done|by destruct threads, memory_budget]].
  open_object d. unfold ingest_samples, with_writer, writer_after, exactly_one in *.
  run_method.
  destruct scratch_space_path, scratch_space_size; cbn in Hone; try done;
    destruct threads, memory_budget; cbn; rewrite <- ?app_assoc, ?app_nil_r; done.
Qed.

(** C8, as the code has it.  With [sample_uris] left at [None],
    [ingest_samples] on a writing session returns at once: the object, its
    writer handle and the record of engine calls are what they were. *)
Theorem ingest_unset_is_noop (d : Dataset) (threads memory_budget : option Z)
  (scratch_space_path : option string) (scratch_space_size sample_batch_size : option Z) :
  mode d = "w" ->
  ingest_samples None threads memory_budget scratch_space_path scratch_space_size
    sample_batch_size d = (Ok tt, d).
Proof. intros Hm. open_object d. unfold ingest_samples. by run_method. Qed.

(** ** Access mode *)

Lemma keeps_mode_bind {A B} (m : M A) (f : A -> M B) :
  keeps_mode m -> (forall a, keeps_mode (f a)) -> keeps_mode (m ≫= f).
Proof.
  intros Hm Hf d. unfold mbind, M_bind. specialize (Hm d).
  destruct (m d) as [[a|e] d']; cbn [snd] in *; [|done].
  by rewrite Hf.
Qed.

Lemma keeps_mode_ret {A} (a : A) : keeps_mode (mret a).
Proof. by intros d. Qed.

Lemma keeps_mode_raise {A} (e : exn) : keeps_mode (raise (A := A) e).
Proof. by intros d. Qed.

Lemma keeps_mode_lift {A} (o : outcome A) : keeps_mode (lift o).
Proof. by intros d. Qed.

Lemma keeps_mode_self_mode : keeps_mode self_mode.
Proof. by intros d. Qed.

Lemma keeps_mode_reader_call (c : reader_cmd) : keeps_mode (reader_call c).
Proof. intros d. unfold reader_call. by destruct (reader d). Qed.

Lemma keeps_mode_reader_ask {A} (q : reader_query) (obs : Reader -> A) :
  keeps_mode (reader_ask q obs).
Proof. intros d. unfold reader_ask. by destruct (reader d). Qed.

Lemma keeps_mode_writer_call (c : writer_cmd) : keeps_mode (writer_call c).
Proof. intros d. unfold writer_call. by destruct (writer d). Qed.

Lemma keeps_mode_writer_ask {A} (q : writer_query) (obs : Writer -> A) :
  keeps_mode (writer_ask q obs).
Proof. intros d. unfold writer_ask. by destruct (writer d). Qed.

Lemma keeps_mode_stats_attr : keeps_mode get_tiledb_stats_enabled_attr.
Proof. intros d. unfold get_tiledb_stats_enabled_attr. by destruct (reader d). Qed.

(** Decomposes a method body along its binds and branches. *)
Ltac keeps_mode_step :=
  match goal with
  | |- keeps_mode (_ ≫= _) => apply keeps_mode_bind; [|intros ?]
  | |- keeps_mode (mret _) => apply keeps_mode_ret
  | |- keeps_mode skip => apply keeps_mode_ret
  | |- keeps_mode (raise _) => apply keeps_mode_raise
  | |- keeps_mode (lift _) => apply keeps_mode_lift
  | |- keeps_mode self_mode => apply keeps_mode_self_mode
  | |- keeps_mode (reader_call _) => apply keeps_mode_reader_call
  | |- keeps_mode (reader_ask _ _) => apply keeps_mode_reader_ask
  | |- keeps_mode (writer_call _) => apply keeps_mode_writer_call
  | |- keeps_mode (writer_ask _ _) => apply keeps_mode_writer_ask
  | |- keeps_mode get_tiledb_stats_enabled_attr => apply keeps_mode_stats_attr
  | |- keeps_mode (if_not_None ?x _) => destruct x; cbn [if_not_None]
  | |- keeps_mode (if ?b then _ else _) => destruct b
  | |- keeps_mode (match ?x with _ => _ end) => destruct x
  | H : keeps_mode ?m |- keeps_mode ?m => exact H
  end.

Lemma keeps_mode_continue_read : keeps_mode continue_read.
Proof. unfold continue_read. repeat keeps_mode_step. Qed.

Lemma keeps_mode_read_completed : keeps_mode read_completed.
Proof. unfold read_completed. repeat keeps_mode_step. Qed.

Lemma keeps_mode_read (attrs : list string) (samples regions : option (list string))
  (samples_file bed_file : option string) :
  keeps_mode (read attrs samples regions samples_file bed_file).
Proof.
  pose proof keeps_mode_continue_read.
  unfold read, _set_samples. repeat keeps_mode_step.
Qed.

Lemma keeps_mode_read_iter_while : keeps_mode read_iter_while.
Proof.
  pose proof keeps_mode_continue_read. pose proof keeps_mode_read_completed.
  unfold read_iter_while. repeat keeps_mode_step.
Qed.

Lemma keeps_mode_read_iter_body (g : read_iter_generator) :
  keeps_mode (read_iter_body g).
Proof.
  pose proof keeps_mode_read_iter_while. pose proof keeps_mode_read_completed.
  pose proof (keeps_mode_read (gen_attrs g) (gen_samples g) (gen_regions g)
                (gen_samples_file g) (gen_bed_file g)).
  unfold read_iter_body. repeat keeps_mode_step.
Qed.

Lemma keeps_mode_count (samples regions : option (list string)) :
  keeps_mode (count samples regions).
Proof.
  pose proof keeps_mode_read_completed.
  unfold count. repeat keeps_mode_step.
Qed.

Lemma keeps_mode_attributes (attr_type : string) : keeps_mode (attributes attr_type).
Proof.
  unfold attributes, _queryable_attrs, _info_attrs, _fmt_attrs.
  repeat keeps_mode_step.
Qed.

Lemma keeps_mode_schema_version : keeps_mode schema_version.
Proof. unfold schema_version. repeat keeps_mode_step. Qed.

Lemma keeps_mode_create_dataset (extra_attrs : option (list string))
  (tile_capacity anchor_gap : option Z) (checksum_type : option string)
  (allow_duplicates : bool) :
  keeps_mode (create_dataset extra_attrs tile_capacity anchor_gap checksum_type
                allow_duplicates).
Proof. unfold create_dataset. repeat keeps_mode_step. Qed.

Lemma keeps_mode_ingest_samples (sample_uris : option (list string))
  (threads memory_budget : option Z) (scratch_space_path : option string)
  (scratch_space_size sample_batch_size : option Z) :
  keeps_mode (ingest_samples sample_uris threads memory_budget scratch_space_path
                scratch_space_size sample_batch_size).
Proof.
  pose proof keeps_mode_schema_version.
  unfold ingest_samples. repeat keeps_mode_step.
Qed.

Lemma keeps_mode_samples : keeps_mode samples.
Proof. unfold samples. repeat keeps_mode_step. Qed.

Lemma keeps_mode_sample_count : keeps_mode sample_count.
Proof. unfold sample_count. repeat keeps_mode_step. Qed.

Lemma keeps_mode_tiledb_stats : keeps_mode tiledb_stats.
Proof. unfold tiledb_stats. repeat keeps_mode_step. Qed.

Lemma invoke_keeps_mode (op : operation) (d : Dataset) :
  mode (snd (invoke op d)) = mode d.
Proof.
  destruct op; cbn [invoke forget snd].
  - apply keeps_mode_read.
  - apply keeps_mode_continue_read.
  - apply keeps_mode_read_completed.
  - unfold read_iter_next. cbn [gen_state read_iter].
    pose proof (keeps_mode_read_iter_body
                  (read_iter attrs samples0 regions samples_file bed_file) d) as Hk.
    by destruct (read_iter_body _ d) as [[[df|]|e] d'].
  - apply keeps_mode_count.
  - apply keeps_mode_attributes.
  - apply keeps_mode_samples.
  - apply keeps_mode_sample_count.
  - apply keeps_mode_schema_version.
  - apply keeps_mode_tiledb_stats.
  - apply keeps_mode_create_dataset.
  - apply keeps_mode_ingest_samples.
Qed.

(** C9, as the code has it.  No operation changes the mode of the
    session.  On a writing session every read-side operation other than
    [schema_version] raises an invalid-mode exception before anything
    else happens, and so does every write-side operation on a reading
    session.  [schema_version] serves both modes: on a writing session it
    returns the writer's schema version. *)
Theorem mode_discipline (op : operation) (d : Dataset) :
  mode (snd (invoke op d)) = mode d
  /\ (is_read_side op = true -> op <> Op_schema_version -> mode d = "w" ->
      exists e, invoke op d = (Some e, d) /\ failure_of e = Some InvalidMode)
  /\ (is_write_side op = true -> mode d = "r" ->
      exists e, invoke op d = (Some e, d) /\ failure_of e = Some InvalidMode)
  /\ (forall w, mode d = "w" -> writer d = Some w ->
      schema_version d =
        (Ok (writer_get_schema_version w), logged d [WriterQuery WQ_get_schema_version])).
Proof.
  split; [apply invoke_keeps_mode|]. repeat apply conj.
  - intros Hside Hop Hm. open_object d.
    destruct op; try done; eexists; (split; [reflexivity|reflexivity]).
  - intros Hside Hm. open_object d.
    destruct op; try done; eexists; (split; [reflexivity|reflexivity]).
  - intros w Hm Hw. open_object d. reflexivity.
Qed.

(** ** Attribute classification *)

Lemma elem_of_sorted_list (s : gset string) (x : string) :
  x ∈ sorted_list s <-> x ∈ s.
Proof.
  unfold sorted_list. rewrite merge_sort_Permutation. apply elem_of_elements.
Qed.

Lemma sorted_list_Sorted (s : gset string) : Sorted String.le (sorted_list s).
Proof. apply (Sorted_merge_sort String.le). Qed.

Lemma sorted_list_NoDup (s : gset string) : NoDup (sorted_list s).
Proof.
  unfold sorted_list. rewrite merge_sort_Permutation. apply NoDup_elements.
Qed.

Lemma str_in_spec (x : string) (t : list string) : str_in x t = true <-> x ∈ t.
Proof.
  unfold str_in. rewrite existsb_exists, list_elem_of_In. split.
  - intros (y & Hy & Heq). apply String.eqb_eq in Heq. by subst.
  - intros Hx. exists x. by rewrite String.eqb_refl.
Qed.

Lemma all_names_spec (queryable : list string) (x : string) :
  x ∈ sorted_list (list_to_set queryable ∖ list_to_set comb_attrs)
  <-> (x ∈ queryable /\ x <> "info" /\ x <> "fmt").
Proof.
  rewrite elem_of_sorted_list, elem_of_difference, !elem_of_list_to_set.
  unfold comb_attrs. rewrite !elem_of_cons, elem_of_nil. tauto.
Qed.

Lemma builtin_names_spec (queryable info fmt : list string) (x : string) :
  x ∈ sorted_list (list_to_set queryable ∖ list_to_set comb_attrs
                     ∖ list_to_set (info ++ fmt))
  <-> (x ∈ queryable /\ x <> "info" /\ x <> "fmt" /\ (x ∉ info) /\ (x ∉ fmt)).
Proof.
  rewrite elem_of_sorted_list, !elem_of_difference, !elem_of_list_to_set.
  unfold comb_attrs. rewrite !elem_of_cons, elem_of_nil, elem_of_app. tauto.
Qed.

(** X16.  The valid selections.  [attributes("info")] and [attributes("fmt")]
    are the engine's lists; [attributes("all")] is the queryable names
    without the two combined names, and [attributes("builtin")] is that
    without the info and fmt names; both come back sorted and without
    duplicates.  So the builtin names are among [attributes("all")] and
    none of them is an info or fmt name. *)
Lemma attributes_classification (d : Dataset) (r : Reader) :
  mode d = "r" -> reader d = Some r ->
  let queryable := reader_get_queryable_attributes r in
  let info := reader_get_info_attributes r in
  let fmt := reader_get_fmt_attributes r in
  exists all builtin,
    fst (attributes "all" d) = Ok all
    /\ fst (attributes "builtin" d) = Ok builtin
    /\ fst (attributes "info" d) = Ok info
    /\ fst (attributes "fmt" d) = Ok fmt
    /\ (forall x, x ∈ all <-> (x ∈ queryable /\ x <> "info" /\ x <> "fmt"))
    /\ (forall x, x ∈ builtin <->
          (x ∈ queryable /\ x <> "info" /\ x <> "fmt" /\ (x ∉ info) /\ (x ∉ fmt)))
    /\ Sorted String.le all /\ NoDup all
    /\ Sorted String.le builtin /\ NoDup builtin
    /\ (forall x, x ∈ builtin -> x ∉ info ++ fmt)
    /\ builtin ⊆ all.
Proof.
  intros Hm Hr queryable info fmt.
  exists (sorted_list (list_to_set queryable ∖ list_to_set comb_attrs)),
    (sorted_list (list_to_set queryable ∖ list_to_set comb_attrs
                    ∖ list_to_set (info ++ fmt))).
  repeat apply conj;
    try (open_object d; reflexivity);
    auto using sorted_list_Sorted, sorted_list_NoDup, all_names_spec,
      builtin_names_spec.
  - intros x Hx. apply builtin_names_spec in Hx as (_ & _ & _ & Hi & Hf).
    rewrite elem_of_app. tauto.
  - intros x Hx. apply all_names_spec. apply builtin_names_spec in Hx. tauto.
Qed.

(** C5, at the failing selection.  For a kind outside
    [("all", "info", "fmt", "builtin")] the message of the intended
    [ValueError] is built with [%] from a format with one [%s] and a tuple
    of four names: the formatting itself raises [TypeError], and no
    [ValueError] is ever raised. *)
Theorem attributes_invalid_kind (d : Dataset) (attr_type : string) :
  mode d = "r" -> str_in attr_type attr_types = false ->
  attributes attr_type d =
    (Raise (PyTypeError "not all arguments converted during string formatting"), d)
  /\ failure_of (PyTypeError "not all arguments converted during string formatting")
       <> Some InvalidArgument.
Proof.
  intros Hm Hkind. split; [|done].
  open_object d. unfold attributes. run_method. by rewrite Hkind.
Qed.
(** * Further properties of the module *)

(** ** Construction *)

Lemma reader_after_app (l1 l2 : list reader_cmd) (r : Reader) :
  reader_after (l1 ++ l2) r = reader_after l2 (reader_after l1 r).
Proof. unfold reader_after. apply foldl_app. Qed.

Lemma writer_after_app (l1 l2 : list writer_cmd) (w : Writer) :
  writer_after (l1 ++ l2) w = writer_after l2 (writer_after l1 w).
Proof. unfold writer_after. apply foldl_app. Qed.

Lemma dict_get_key_present (c : pydict) (k : string) :
  k ∈ dict_keys c -> is_Some (dict_get c k).
Proof.
  induction c as [|[k' v'] c IH]; cbn; [by rewrite elem_of_nil|].
  rewrite elem_of_cons. intros [->|Hk].
  - rewrite String.eqb_refl. by eexists.
  - destruct (String.eqb k' k); [by eexists|by apply IH].
Qed.

(** Looking up the keys a mapping was iterated by never fails. *)
Lemma append_config_items_total (c : pydict) (keys lst : list string) :
  (forall k, k ∈ keys -> k ∈ dict_keys c) ->
  exists l, append_config_items c keys lst = Ok l.
Proof.
  revert lst. induction keys as [|k keys IH]; intros lst Hkeys; cbn; [by eexists|].
  destruct (dict_get_key_present c k) as [v ->]; [apply Hkeys; left|].
  destruct (ne_empty_str v); apply IH; intros k' Hk'; apply Hkeys; by right.
Qed.

Lemma tiledb_config_list_total (v : tiledb_config_value) :
  exists l, tiledb_config_list v = Ok l.
Proof.
  destruct v as [l|c|c|]; cbn; [by eexists| |destruct tiledb_importable; [|by eexists]
                                 |by eexists];
    by apply append_config_items_total.
Qed.

Lemma set_read_cfg_reading (cfg : option ReadConfig) (d : Dataset) (r : Reader) :
  reader d = Some r ->
  _set_read_cfg cfg d =
    (Ok tt, with_reader d (reader_after (read_cfg_commands cfg) r)
              (ReaderCmd <$> read_cfg_commands cfg)).
Proof.
  intros Hr. open_object d. unfold with_reader, reader_after.
  destruct cfg as [[lim rp sp sr mb tc]|]; cbn; [|by rewrite app_nil_r].
  unfold scalar_overrides, override_csv. run_method.
  destruct tc as [v|]; cbn.
  - destruct (tiledb_config_list_total v) as [l ->].
    destruct lim, rp, sp, sr, mb; cbn; rewrite <- ?app_assoc; done.
  - destruct lim, rp, sp, sr, mb; cbn; rewrite <- ?app_assoc, ?app_nil_r; done.
Qed.

Lemma set_write_cfg_writing (cfg : option ReadConfig) (d : Dataset) (w : Writer) :
  writer d = Some w ->
  _set_write_cfg cfg d =
    (Ok tt, with_writer d (writer_after (write_cfg_commands cfg) w)
              (WriterCmd <$> write_cfg_commands cfg)).
Proof.
  intros Hw. open_object d. unfold with_writer, writer_after.
  destruct cfg as [[lim rp sp sr mb tc]|]; cbn; [|by rewrite app_nil_r].
  unfold override_csv. run_method.
  destruct tc as [v|]; cbn; [|by rewrite app_nil_r].
  by destruct (tiledb_config_list_total v) as [l ->].
Qed.

Lemma Dataset_new_reading (u : string) (c : option ReadConfig) (stats verbose : bool) :
  let cmds := read_cfg_commands c ++
              [R_init u; R_set_tiledb_stats_enabled stats; R_set_verbose verbose] in
  Dataset_new u "r" c stats verbose =
    (Ok tt, mkDataset u "r" c (Some (reader_after cmds Reader_new)) None
              (NewReader :: (ReaderCmd <$> cmds))).
Proof.
  intros cmds. subst cmds.
  unfold Dataset_new, __init__, object_new, assign_uri, assign_mode, assign_cfg,
    assign_reader_new, self_mode.
  unfold mbind at 1 2 3 4 5, M_bind.
  cbn [String.eqb Ascii.eqb Bool.eqb app uri mode cfg reader writer engine_log].
  unfold mbind at 1, M_bind.
  rewrite (set_read_cfg_reading c _ Reader_new) by done.
  unfold with_reader, reader_call, mbind, M_bind. cbn.
  rewrite reader_after_app, fmap_app. cbn. by rewrite <- !app_assoc.
Qed.

Lemma Dataset_new_writing (u : string) (c : option ReadConfig) (stats verbose : bool) :
  let cmds := write_cfg_commands c ++ [W_init u; W_set_verbose verbose] in
  Dataset_new u "w" c stats verbose =
    (Ok tt, mkDataset u "w" c None (Some (writer_after cmds Writer_new))
              (NewWriter :: (WriterCmd <$> cmds))).
Proof.
  intros cmds. subst cmds.
  unfold Dataset_new, __init__, object_new, assign_uri, assign_mode, assign_cfg,
    assign_writer_new, self_mode.
  unfold mbind at 1 2 3 4, M_bind.
  cbn [String.eqb Ascii.eqb Bool.eqb app uri mode cfg reader writer engine_log].
  unfold mbind at 1 2, M_bind.
  rewrite (set_write_cfg_writing c _ Writer_new) by done.
  unfold with_writer, writer_call, mbind, M_bind. cbn.
  rewrite writer_after_app, fmap_app. cbn. by rewrite <- !app_assoc.
Qed.

Lemma Dataset_new_invalid (uri mode : string) (cfg : option ReadConfig)
  (stats verbose : bool) :
  mode <> "r" -> mode <> "w" ->
  Dataset_new uri mode cfg stats verbose =
    (Raise (PyException ("Unsupported dataset mode " +:+ mode)),
     mkDataset uri mode cfg None None []).
Proof.
  intros Hr Hw. apply String.eqb_neq in Hr, Hw.
  unfold Dataset_new, __init__, object_new, assign_uri, assign_mode, assign_cfg.
  run_method. by rewrite Hr, Hw.
Qed.

Lemma Dataset_new_ok_iff (u m : string) (c : option ReadConfig) (stats verbose : bool) :
  fst (Dataset_new u m c stats verbose) = Ok tt <-> (m = "r" \/ m = "w").
Proof.
  destruct (String.eqb_spec m "r") as [->|Hr].
  { rewrite Dataset_new_reading. cbn. tauto. }
  destruct (String.eqb_spec m "w") as [->|Hw].
  { rewrite Dataset_new_writing. cbn. tauto. }
  rewrite Dataset_new_invalid by done. cbn. split; [done|tauto].
Qed.

(** X2.  A configuration with every field unset applies nothing:
    [cfg=ReadConfig()] leads to the same engine calls, the same handles and
    the same outcome as [cfg=None], in every mode. *)
Theorem unset_config_applies_nothing (u m : string) (stats verbose : bool) :
  let with_none := Dataset_new u m None stats verbose in
  let with_defaults := Dataset_new u m (Some ReadConfig_defaults) stats verbose in
  fst with_defaults = fst with_none
  /\ engine_log (snd with_defaults) = engine_log (snd with_none)
  /\ reader (snd with_defaults) = reader (snd with_none)
  /\ writer (snd with_defaults) = writer (snd with_none).
Proof.
  cbv zeta.
  destruct (String.eqb_spec m "r") as [->|Hr]; [by rewrite !Dataset_new_reading|].
  destruct (String.eqb_spec m "w") as [->|Hw]; [by rewrite !Dataset_new_writing|].
  by rewrite !Dataset_new_invalid.
Qed.

Lemma read_cfg_commands_overrides (c : option ReadConfig) :
  forallb is_config_override (ReaderCmd <$> read_cfg_commands c) = true
  /\ length (read_cfg_commands c) <= 6.
Proof.
  destruct c as [[lim rp sp sr mb tc]|]; cbn; [|split; [done|lia]].
  unfold scalar_overrides. cbn.
  destruct lim, rp, sp, sr, mb, tc; cbn; split; (done || lia).
Qed.

(** X3.  The constructor configures the handle before it opens the
    dataset.  In read mode the engine sees [Reader()], then the configured
    overrides (at most six, one per field set), then [init(uri)],
    [set_tiledb_stats_enabled(stats)] and [set_verbose(verbose)]; in write
    mode [Writer()], at most one override, then [init(uri)] and
    [set_verbose(verbose)]. *)
Theorem constructor_call_order (u : string) (c : option ReadConfig)
  (stats verbose : bool) :
  (engine_log (snd (Dataset_new u "r" c stats verbose)) =
     NewReader :: (ReaderCmd <$> read_cfg_commands c) ++
     [ReaderCmd (R_init u); ReaderCmd (R_set_tiledb_stats_enabled stats);
      ReaderCmd (R_set_verbose verbose)]
   /\ forallb is_config_override (ReaderCmd <$> read_cfg_commands c) = true
   /\ length (read_cfg_commands c) <= 6)
  /\ (engine_log (snd (Dataset_new u "w" c stats verbose)) =
        NewWriter :: (WriterCmd <$> write_cfg_commands c) ++
        [WriterCmd (W_init u); WriterCmd (W_set_verbose verbose)]
      /\ forallb is_config_override (WriterCmd <$> write_cfg_commands c) = true
      /\ length (write_cfg_commands c) <= 1).
Proof.
  split.
  - rewrite Dataset_new_reading. cbn [snd engine_log]. rewrite fmap_app.
    split; [done|apply read_cfg_commands_overrides].
  - rewrite Dataset_new_writing. cbn [snd engine_log]. rewrite fmap_app.
    split; [done|].
    destruct c as [[lim rp sp sr mb [v|]]|]; cbn; split; (done || lia).
Qed.

(** ** Reading, once more *)

Lemma read_reading (d : Dataset) (r : Reader) (attrs : list string)
  (samples regions : option (list string)) (samples_file bed_file : option string) :
  mode d = "r" -> reader d = Some r -> conflicting samples samples_file = false ->
  let cmds := read_commands attrs samples regions samples_file bed_file in
  read attrs samples regions samples_file bed_file d =
    (Ok (to_pandas (reader_get_results_arrow (reader_after cmds r))),
     with_reader d (reader_after cmds r)
       ((ReaderCmd <$> cmds) ++ [ReaderQuery Q_get_results_arrow])).
Proof.
  intros Hm Hr Hc cmds. subst cmds. open_object d.
  unfold read, continue_read, _set_samples, with_reader, reader_after, read_commands.
  run_method.
  destruct samples, samples_file, bed_file; try done; cbn; rewrite <- ?app_assoc; done.
Qed.

Lemma read_conflict (d : Dataset) (r : Reader) (attrs : list string)
  (samples regions : option (list string)) (samples_file bed_file : option string) :
  mode d = "r" -> reader d = Some r -> conflicting samples samples_file = true ->
  read attrs samples regions samples_file bed_file d =
    (Raise (PyTypeError conflicting_selection_message),
     with_reader d (reader_exec R_reset r) [ReaderCmd R_reset]).
Proof.
  intros Hm Hr Hc. open_object d.
  unfold read, _set_samples, with_reader. run_method.
  by destruct samples, samples_file.
Qed.

Lemma read_units_app (l1 l2 : list engine_call) :
  read_units (l1 ++ l2) = read_units l1 + read_units l2.
Proof. unfold read_units. by rewrite filter_app, length_app. Qed.

Lemma read_units_read_commands (attrs : list string)
  (samples regions : option (list string)) (samples_file bed_file : option string) :
  read_units ((ReaderCmd <$> read_commands attrs samples regions samples_file bed_file)
              ++ [ReaderQuery Q_get_results_arrow]) = 1.
Proof. unfold read_commands. by destruct samples, samples_file, bed_file. Qed.

(** X5.  The calls of one [read].  On a reading session, when [samples]
    and [samples_file] are not both given, [read] hands the engine, in
    order: [reset()]; the sample selection (the names joined by commas, or
    an emptied name list followed by the samples file, or nothing); the
    regions joined by commas, always sent and empty when unset; the
    attributes as given; the BED file if given; one read unit; and
    [get_results_arrow()].  A frame it returns is the conversion of the
    table the handle holds after that unit. *)
Theorem read_call_record (d : Dataset) (r : Reader) (attrs : list string)
  (samples regions : option (list string)) (samples_file bed_file : option string) :
  mode d = "r" -> reader d = Some r -> conflicting samples samples_file = false ->
  let selection :=
    match samples, samples_file with
    | Some names, _ => [R_set_samples (String.concat "," names)]
    | None, Some file => [R_set_samples ""; R_set_samples_file file]
    | None, None => []
    end in
  let cmds :=
    [R_reset] ++ selection ++
    [R_set_regions (from_option (String.concat ",") "" regions); R_set_attributes attrs] ++
    option_list (R_set_bed_file <$> bed_file) ++ [R_read] in
  let d' := snd (read attrs samples regions samples_file bed_file d) in
  calls_since d d' = (ReaderCmd <$> cmds) ++ [ReaderQuery Q_get_results_arrow]
  /\ reader d' = Some (reader_after cmds r)
  /\ read_units (calls_since d d') = 1
  /\ (forall df, fst (read attrs samples regions samples_file bed_file d) = Ok df ->
      df = to_pandas (reader_get_results_arrow (reader_after cmds r))).
Proof.
  intros Hm Hr Hc selection cmds d'. subst d'.
  assert (cmds = read_commands attrs samples regions samples_file bed_file) as ->.
  { subst cmds selection. unfold read_commands, sample_selection, join_or_empty, join.
    by destruct samples, samples_file, regions. }
  rewrite (read_reading d r) by done. cbn [fst snd].
  rewrite calls_since_with_reader.
  repeat apply conj; [done|done|apply read_units_read_commands|by intros df [= <-]].
Qed.

(** ** Metadata *)

(** X6.  The operations that only ask ([read_completed], [attributes],
    [samples], [sample_count], [schema_version], [tiledb_stats]) leave
    both handles as they found them on any session: the only engine calls
    they make are accessor calls, so a paginated read can be interleaved
    with them. *)
Theorem metadata_leaves_handles (op : operation) (d : Dataset) :
  is_metadata op = true ->
  reader (snd (invoke op d)) = reader d
  /\ writer (snd (invoke op d)) = writer d
  /\ forallb is_query (calls_since d (snd (invoke op d))) = true.
Proof.
  intros Hop. destruct d as [u m c rd wr lg].
  assert (forall l, forallb is_query (drop (length lg) (lg ++ l)) = forallb is_query l)
    as Hdrop by (intros l; by rewrite drop_app_length).
  assert (forallb is_query (drop (length lg) lg) = true) as Hnone
    by (by rewrite drop_all).
  unfold calls_since. cbn [engine_log].
  destruct op; try done; cbn [invoke forget snd fst];
    unfold read_completed, attributes, samples, sample_count, schema_version,
      tiledb_stats, _queryable_attrs, _info_attrs, _fmt_attrs,
      get_tiledb_stats_enabled_attr;
    unfold mbind, M_bind, mret, M_ret, raise, lift, self_mode, reader_ask, writer_ask;
    cbn [fst snd uri mode cfg reader writer engine_log];
    destruct (negb (String.eqb m "r"));
    cbn [fst snd uri mode cfg reader writer engine_log];
    rewrite ?Hnone; try done.
  - destruct rd; cbn; rewrite ?Hdrop, ?Hnone; done.
  - destruct (negb (str_in attr_type attr_types)); [cbn; by rewrite Hnone|].
    destruct (String.eqb attr_type "info");
      [destruct rd; cbn; rewrite ?Hdrop, ?Hnone; done|].
    destruct (String.eqb attr_type "fmt");
      [destruct rd; cbn; rewrite ?Hdrop, ?Hnone; done|].
    destruct rd; cbn [fst snd uri mode cfg reader writer engine_log];
      [|by rewrite Hnone].
    destruct (String.eqb attr_type "builtin");
      cbn [fst snd uri mode cfg reader writer engine_log];
      rewrite <- ?app_assoc, ?Hdrop; done.
  - destruct rd; cbn; rewrite ?Hdrop, ?Hnone; done.
  - destruct rd; cbn; rewrite ?Hdrop, ?Hnone; done.
  - destruct wr; cbn; rewrite ?Hdrop, ?Hnone; done.
  - destruct rd; cbn; rewrite ?Hdrop, ?Hnone; done.
  - destruct rd; cbn; rewrite ?Hdrop, ?Hnone; done.
Qed.

(** X7.  [tiledb_stats] never raises ["Stats not enabled"]: the test is
    on the bound method [get_tiledb_stats_enabled], not on its result.  On
    a reading session it returns the engine's statistics even when the
    session was opened with [stats=False]. *)
Theorem tiledb_stats_never_disabled (d : Dataset) :
  fst (tiledb_stats d) <> Raise (PyException "Stats not enabled")
  /\ (forall r, mode d = "r" -> reader d = Some r ->
      tiledb_stats d =
        (Ok (reader_get_tiledb_stats r), logged d [ReaderQuery Q_get_tiledb_stats])).
Proof.
  split.
  - destruct d as [u m c rd wr lg].
    unfold tiledb_stats, get_tiledb_stats_enabled_attr. run_method.
    destruct (negb _), rd; done.
  - intros r Hm Hr. open_object d. reflexivity.
Qed.

(** ** The write side, once more *)

(** X8.  The calls of [create_dataset].  On a writing session it hands
    the writer, in order: the extra attributes joined by commas (empty
    when unset); of the tile capacity, the anchor gap and the checksum only
    those that were given, the checksum passed through [str.lower]; then
    [set_allow_duplicates]; and last [create_dataset()].  That is between
    three and six calls. *)
Theorem create_dataset_call_record (d : Dataset) (w : Writer)
  (extra_attrs : option (list string)) (tile_capacity anchor_gap : option Z)
  (checksum_type : option string) (allow_duplicates : bool) :
  mode d = "w" -> writer d = Some w ->
  let cmds := create_commands extra_attrs tile_capacity anchor_gap checksum_type
                allow_duplicates in
  let d' := snd (create_dataset extra_attrs tile_capacity anchor_gap checksum_type
                   allow_duplicates d) in
  calls_since d d' = WriterCmd <$> cmds
  /\ writer d' = Some (writer_after cmds w)
  /\ head cmds =
       Some (W_set_extra_attributes (from_option (String.concat ",") "" extra_attrs))
  /\ last cmds = Some W_create_dataset
  /\ 3 <= length cmds <= 6.
Proof.
  intros Hm Hw cmds d'. subst d' cmds. unfold create_commands.
  assert (create_dataset extra_attrs tile_capacity anchor_gap checksum_type
            allow_duplicates d =
          (Ok tt,
           with_writer d
             (writer_after
                (create_commands extra_attrs tile_capacity anchor_gap checksum_type
                   allow_duplicates) w)
             (WriterCmd <$> create_commands extra_attrs tile_capacity anchor_gap
                              checksum_type allow_duplicates))) as Hrun.
  { open_object d.
    unfold create_dataset, with_writer, writer_after, create_commands, join_or_empty, join.
    run_method.
    destruct extra_attrs, tile_capacity, anchor_gap, checksum_type; cbn;
      rewrite <- ?app_assoc; done. }
  rewrite Hrun. cbn [snd]. rewrite calls_since_with_writer.
  unfold create_commands.
  destruct tile_capacity, anchor_gap, checksum_type; cbn; repeat split; (done || lia).
Qed.

(** X9.  The calls of [ingest_samples].  On a writing session, when
    [sample_uris] is given and the scratch space is given in full or not at
    all, it hands the writer the settings that were given and the sample
    list joined by commas, asks it for the schema version, calls
    [register_samples()] exactly when that version is below 4, and ends
    with the one [ingest_samples()] call. *)
Theorem ingest_call_record (d : Dataset) (w : Writer) (sample_uris : list string)
  (threads memory_budget : option Z) (scratch_space_path : option string)
  (scratch_space_size sample_batch_size : option Z) :
  mode d = "w" -> writer d = Some w ->
  is_not_None scratch_space_path = is_not_None scratch_space_size ->
  let settings := ingest_settings sample_uris threads memory_budget scratch_space_path
                    scratch_space_size sample_batch_size in
  let w1 := writer_after settings w in
  let old := (writer_get_schema_version w1 <? 4)%Z in
  let tail := (if old then [W_register_samples] else []) ++ [W_ingest_samples] in
  let calls := (WriterCmd <$> settings) ++ [WriterQuery WQ_get_schema_version] ++
               (WriterCmd <$> tail) in
  let d' := snd (ingest_samples (Some sample_uris) threads memory_budget
                   scratch_space_path scratch_space_size sample_batch_size d) in
  calls_since d d' = calls
  /\ writer d' = Some (writer_after tail w1)
  /\ (WriterCmd W_register_samples ∈ calls <-> (writer_get_schema_version w1 < 4)%Z)
  /\ last calls = Some (WriterCmd W_ingest_samples)
  /\ length (filter is_ingest_call calls) = 1.
Proof.
  intros Hm Hw Hboth settings w1 old tail calls d'.
  assert (WriterCmd W_register_samples ∉ WriterCmd <$> settings) as Hnot.
  { subst settings. unfold ingest_settings.
    destruct threads, memory_budget, scratch_space_path, scratch_space_size,
      sample_batch_size; cbn;
      rewrite ?elem_of_cons, elem_of_nil; intuition discriminate. }
  assert (filter is_ingest_call (WriterCmd <$> settings) = []) as Hnone.
  { subst settings. unfold ingest_settings.
    by destruct threads, memory_budget, scratch_space_path, scratch_space_size,
      sample_batch_size. }
  assert (ingest_samples (Some sample_uris) threads memory_budget scratch_space_path
            scratch_space_size sample_batch_size d =
          (Ok tt, with_writer d (writer_after tail w1) calls)) as Hrun.
  { subst calls tail old w1 settings. open_object d.
    unfold ingest_samples, schema_version, with_writer, writer_after, ingest_settings,
      join.
    run_method.
    destruct scratch_space_path, scratch_space_size; try done;
      destruct threads, memory_budget, sample_batch_size; cbn;
      destruct (_ <? 4)%Z; cbn; rewrite <- ?app_assoc; done. }
  subst d'. rewrite Hrun. cbn [snd]. rewrite calls_since_with_writer.
  repeat apply conj; [done|done| | | |].
  - subst calls tail. rewrite !elem_of_app. intros [?|[Hq|Ht]]; [done| |].
    + apply list_elem_of_singleton in Hq. discriminate.
    + subst old. destruct (Z.ltb_spec (writer_get_schema_version w1) 4); [done|].
      cbn in Ht. apply list_elem_of_singleton in Ht. discriminate.
  - intros Hlt. subst calls tail old. rewrite !elem_of_app. right. right.
    apply Z.ltb_lt in Hlt. rewrite Hlt. cbn. left.
  - subst calls tail. rewrite !last_app. by destruct old.
  - subst calls tail. rewrite !filter_app, Hnone. by destruct old.
Qed.

(** ** The generator, once more *)

Lemma with_reader_same (d : Dataset) (r : Reader) :
  reader d = Some r -> with_reader d r [] = d.
Proof. intros Hr. open_object d. unfold with_reader. cbn. by rewrite app_nil_r. Qed.

Lemma with_reader_with_reader (d : Dataset) (r1 r2 : Reader) (l1 l2 : list engine_call) :
  with_reader (with_reader d r1 l1) r2 l2 = with_reader d r2 (l1 ++ l2).
Proof. unfold with_reader. cbn. by rewrite app_assoc. Qed.

Lemma logged_as_with_reader (d : Dataset) (r : Reader) (l : list engine_call) :
  reader d = Some r -> logged d l = with_reader d r l.
Proof. intros Hr. unfold logged, with_reader. by rewrite Hr. Qed.

(** One [next] on a reading session: what it produces, and what it costs
    in read units. *)
Lemma read_iter_next_reading (g : read_iter_generator) (d : Dataset) (r : Reader) :
  mode d = "r" -> reader d = Some r ->
  exists ev g' r' new,
    read_iter_next g d = (ev, g', with_reader d r' new)
    /\ read_units new = match ev with Yield _ => 1 | _ => 0 end
    /\ match ev with
       | Yield _ => gen_state g' = GenSuspended
       | StopIteration => gen_state g = GenClosed \/ (reader_completed r = true /\ r' = r)
       | Throw _ => True
       end.
Proof.
  intros Hm Hr.
  assert (mode (logged d [ReaderQuery Q_completed]) = "r") as Hm' by done.
  assert (reader (logged d [ReaderQuery Q_completed]) = Some r) as Hr' by done.
  unfold read_iter_next. destruct (gen_state g) eqn:Hg.
  - rewrite (read_iter_body_reading d r g Hm Hr).
    destruct (reader_completed r) eqn:Hc.
    + eexists _, _, r, _. rewrite (logged_as_with_reader d r) by done.
      repeat apply conj; [done|done|by right].
    + destruct (conflicting (gen_samples g) (gen_samples_file g)) eqn:Hconf.
      * rewrite (read_conflict _ r) by done.
        rewrite (logged_as_with_reader d r) by done. rewrite with_reader_with_reader.
        eexists _, _, _, _. by repeat apply conj.
      * rewrite (read_reading _ r) by done.
        rewrite (logged_as_with_reader d r) by done. rewrite with_reader_with_reader.
        eexists _, _, _, _. repeat apply conj; [done| |done].
        by rewrite read_units_app, read_units_read_commands.
  - rewrite (read_iter_while_reading d r Hm Hr).
    destruct (reader_completed r) eqn:Hc.
    + eexists _, _, r, _. rewrite (logged_as_with_reader d r) by done.
      repeat apply conj; [done|done|by right].
    + rewrite (continue_read_reading _ r) by done.
      rewrite (logged_as_with_reader d r) by done. rewrite with_reader_with_reader.
      eexists _, _, _, _. by repeat apply conj.
  - eexists _, _, r, []. rewrite with_reader_same by done.
    repeat apply conj; [done|done|by left].
Qed.

(** Draining on a reading session: every frame is paid for by one read
    unit, and a drain that ends by itself ends on a completed handle. *)
Lemma exhaust_reading (fuel : nat) (g : read_iter_generator) (acc : list DataFrame)
  (d : Dataset) (r : Reader) (res : drained) :
  mode d = "r" -> reader d = Some r -> exhaust fuel g acc d = Some res ->
  exists r' new,
    final res = with_reader d r' new
    /\ length (frames res) = length acc + read_units new
    /\ (interrupted res = None -> gen_state g <> GenClosed -> reader_completed r' = true).
Proof.
  revert g acc d r. induction fuel as [|fuel IH]; intros g acc d r Hm Hr Hres; [done|].
  cbn [exhaust] in Hres.
  destruct (read_iter_next_reading g d r Hm Hr) as (ev & g' & r' & new & Hnext & Hunits & Hev).
  rewrite Hnext in Hres. destruct ev as [df| |e].
  - apply (IH g' _ _ r') in Hres as (r'' & new' & Hfinal & Hlen & Hdone); [|done..].
    rewrite with_reader_with_reader in Hfinal.
    exists r'', (new ++ new'). repeat apply conj; [done| |].
    + rewrite Hlen, length_app, read_units_app, Hunits. cbn. lia.
    + intros Hi _. apply Hdone; [done|]. by rewrite Hev.
  - injection Hres as <-. exists r', new. cbn. repeat apply conj; [done|lia|].
    intros _ Hg. by destruct Hev as [?|[? ->]].
  - injection Hres as <-. exists r', new. cbn. repeat apply conj; [done|lia|done].
Qed.

(** X10.  A drain of [read_iter] on a reading session that ends without
    an exception has yielded exactly one frame per engine read unit
    issued: no unit's result is dropped and no frame comes without a
    unit. *)
Theorem frames_match_read_units (fuel : nat) (g : read_iter_generator) (d : Dataset)
  (r : Reader) (res : drained) :
  mode d = "r" -> reader d = Some r -> exhaust fuel g [] d = Some res ->
  interrupted res = None ->
  length (frames res) = read_units (calls_since d (final res)).
Proof.
  intros Hm Hr Hres _.
  destruct (exhaust_reading fuel g [] d r res Hm Hr Hres) as (r' & new & -> & Hlen & _).
  by rewrite calls_since_with_reader.
Qed.

(** X11.  A drain of an open generator that ends without an exception
    leaves the reading session with [read_completed()] true. *)
Theorem drain_ends_completed (fuel : nat) (g : read_iter_generator)
  (acc : list DataFrame) (d : Dataset) (r : Reader) (res : drained) :
  mode d = "r" -> reader d = Some r -> gen_state g <> GenClosed ->
  exhaust fuel g acc d = Some res -> interrupted res = None ->
  read_completed (final res) = (Ok true, logged (final res) [ReaderQuery Q_completed]).
Proof.
  intros Hm Hr Hg Hres Hi.
  destruct (exhaust_reading fuel g acc d r res Hm Hr Hres) as (r' & new & Hfinal & _ & Hc).
  rewrite (read_completed_reading (final res) r'); [|by rewrite Hfinal..].
  by rewrite Hc.
Qed.

Lemma exhaust_completed (fuel : nat) (d : Dataset) (r : Reader) (attrs : list string)
  (samples regions : option (list string)) (samples_file bed_file : option string) :
  mode d = "r" -> reader d = Some r -> reader_completed r = true ->
  exhaust (S fuel) (read_iter attrs samples regions samples_file bed_file) [] d =
    Some (mkDrained [] None
            (logged d [ReaderQuery Q_completed; ReaderQuery Q_completed])).
Proof.
  intros Hm Hr Hc. cbn [exhaust]. unfold read_iter_next. cbn [gen_state read_iter].
  by rewrite (read_iter_body_reading d r _ Hm Hr), Hc.
Qed.

(** X12.  A paginated read ends.  On a reading session that is not
    completed, with no conflict in the sample arguments, if the handle that
    [read] leaves reports completion within [n] further read units, then
    [n + 2] calls of [next] drain [read_iter]: no exception, at least one
    frame, and [read_completed()] true afterwards. *)
Theorem read_iter_terminates (n : nat) (d : Dataset) (r : Reader) (attrs : list string)
  (samples regions : option (list string)) (samples_file bed_file : option string) :
  mode d = "r" -> reader d = Some r -> reader_completed r = false ->
  conflicting samples samples_file = false ->
  completes_within n
    (reader_after (read_commands attrs samples regions samples_file bed_file) r) = true ->
  exists res,
    exhaust (S (S n)) (read_iter attrs samples regions samples_file bed_file) [] d
      = Some res
    /\ interrupted res = None
    /\ 1 <= length (frames res)
    /\ fst (read_completed (final res)) = Ok true.
Proof.
  intros Hm Hr Hc Hconf Hn.
  assert (mode (logged d [ReaderQuery Q_completed]) = "r") as Hm' by done.
  assert (reader (logged d [ReaderQuery Q_completed]) = Some r) as Hr' by done.
  change (exhaust (S (S n)) ?g [] d) with
    (match read_iter_next g d with
     | (Yield df, g', d') => exhaust (S n) g' ([] ++ [df]) d'
     | (StopIteration, _, d') => Some (mkDrained [] None d')
     | (Throw e, _, d') => Some (mkDrained [] (Some e) d')
     end).
  unfold read_iter_next. cbn [gen_state read_iter].
  rewrite (read_iter_body_reading d r _ Hm Hr), Hc.
  cbn [gen_attrs gen_samples gen_regions gen_samples_file gen_bed_file].
  rewrite (read_reading _ r) by done. cbn [outcome_map app].
  rewrite exhaust_suspended by done.
  match goal with |- context [manual_continue _ ?a ?s] =>
    assert (mode s = "r") as Hm1 by exact Hm;
    assert (reader s = Some (reader_after
              (read_commands attrs samples regions samples_file bed_file) r)) as Hr1
      by done;
    destruct (paginated_read_terminates n s _ a Hm1 Hr1 Hn)
      as (res & Hres & Hi & Hdone);
    pose proof Hres as Hres';
    rewrite <- (exhaust_suspended _
                  (gen_moved (read_iter attrs samples regions samples_file bed_file)
                     GenSuspended)) in Hres' by done;
    destruct (exhaust_reading _ _ _ _ _ _ Hm1 Hr1 Hres')
      as (r' & new & _ & Hlen & _)
  end.
  exists res. repeat apply conj; [done|done| |done].
  rewrite Hlen. cbn. lia.
Qed.


(** X14.  A successful [count] leaves the handle completed, so a
    [read_iter(...)] that follows it on the same session yields no frame,
    whatever its arguments. *)
Theorem read_iter_after_count_is_empty (fuel : nat) (d : Dataset) (r : Reader)
  (n : Z) (count_samples count_regions : option (list string)) (attrs : list string)
  (samples regions : option (list string)) (samples_file bed_file : option string) :
  mode d = "r" -> reader d = Some r ->
  fst (count count_samples count_regions d) = Ok n ->
  let d' := snd (count count_samples count_regions d) in
  exhaust (S fuel) (read_iter attrs samples regions samples_file bed_file) [] d' =
    Some (mkDrained [] None (logged d' [ReaderQuery Q_completed; ReaderQuery Q_completed])).
Proof.
  intros Hm Hr Hn d'. subst d'. open_object d.
  unfold count, read_completed in *. run_method.
  destruct (reader_completed _) eqn:Hc; [|done].
  cbn [negb fst snd] in *.
  eapply exhaust_completed; [done|done|exact Hc].
Qed.

(** ** Handles and modes *)

(** Splits a goal along the tests and optional arguments it is stuck on. *)
Ltac split_cases :=
  repeat first
    [ progress cbn [fst snd raised outcome_map negb uri mode cfg reader writer
                    engine_log String.eqb Ascii.eqb Bool.eqb]
    | match goal with
      | |- context [if ?b then _ else _] => destruct b
      end
    | match goal with
      | |- context [match ?x with _ => _ end] => is_var x; destruct x
      end ].

Ltac unfold_methods :=
  unfold invoke, forget, read_iter_next, read_iter_body, read_iter_while, read, count,
    attributes, samples, sample_count, tiledb_stats, create_dataset, ingest_samples,
    continue_read, read_completed, schema_version, _set_samples,
    _queryable_attrs, _info_attrs, _fmt_attrs, get_tiledb_stats_enabled_attr;
  unfold if_not_None, skip, mbind, M_bind, mret, M_ret, raise, lift, self_mode,
    reader_call, reader_ask, writer_call, writer_ask.

Lemma invoke_safe (op : operation) (d : Dataset) :
  well_formed d ->
  well_formed (snd (invoke op d))
  /\ forall name, fst (invoke op d) <> Some (PyAttributeError name).
Proof.
  intros [(Hm & Hr & Hw)|(Hm & Hw & Hr)];
    destruct d as [u m c [r|] [w|] lg]; cbn in Hm, Hr, Hw; try done; subst m;
    unfold well_formed; destruct op; unfold_methods;
    cbn [fst snd raised outcome_map negb uri mode cfg reader writer engine_log
         String.eqb Ascii.eqb Bool.eqb gen_state gen_attrs gen_samples gen_regions
         gen_samples_file gen_bed_file read_iter];
    split_cases; (split; [tauto|intros; discriminate]).
Qed.

Lemma read_iter_next_safe (g : read_iter_generator) (d : Dataset) :
  well_formed d ->
  well_formed (snd (read_iter_next g d))
  /\ forall name, fst (fst (read_iter_next g d)) <> Throw (PyAttributeError name).
Proof.
  intros [(Hm & Hr & Hw)|(Hm & Hw & Hr)];
    destruct d as [u m c [r|] [w|] lg]; cbn in Hm, Hr, Hw; try done; subst m;
    unfold well_formed; destruct g as [[] a s rg sf bf]; unfold_methods;
    cbn [fst snd raised outcome_map negb uri mode cfg reader writer engine_log
         String.eqb Ascii.eqb Bool.eqb gen_state gen_attrs gen_samples gen_regions
         gen_samples_file gen_bed_file read_iter];
    split_cases; (split; [tauto|intros; discriminate]).
Qed.

Lemma after_well_formed (ops : list operation) (d : Dataset) :
  well_formed d -> well_formed (after ops d) /\ mode (after ops d) = mode d.
Proof.
  revert d. induction ops as [|op ops IH]; intros d Hwf; [done|].
  cbn [after foldl]. fold (after ops (snd (invoke op d))).
  destruct (IH (snd (invoke op d))) as [Hwf' Hmode]; [by apply invoke_safe|].
  split; [done|]. rewrite Hmode. apply invoke_keeps_mode.
Qed.

Lemma Dataset_new_well_formed (u m : string) (c : option ReadConfig)
  (stats verbose : bool) :
  fst (Dataset_new u m c stats verbose) = Ok tt ->
  well_formed (snd (Dataset_new u m c stats verbose))
  /\ mode (snd (Dataset_new u m c stats verbose)) = m.
Proof.
  intros Hok. apply Dataset_new_ok_iff in Hok as [->| ->].
  - rewrite Dataset_new_reading. unfold well_formed. cbn. tauto.
  - rewrite Dataset_new_writing. unfold well_formed. cbn. tauto.
Qed.

(** X15.  The mode tests guard every handle access.  A session that the
    constructor returned stays well formed and keeps its mode through any
    series of operations, whatever they return or raise, and no operation
    on it, nor any [next] of a [read_iter] generator, ever fails for a
    missing [reader] or [writer] attribute. *)
Theorem constructed_session_is_safe (u m : string) (c : option ReadConfig)
  (stats verbose : bool) (ops : list operation) (op : operation)
  (g : read_iter_generator) :
  fst (Dataset_new u m c stats verbose) = Ok tt ->
  let d := after ops (snd (Dataset_new u m c stats verbose)) in
  well_formed d
  /\ mode d = m
  /\ (forall name, fst (invoke op d) <> Some (PyAttributeError name))
  /\ (forall name, fst (fst (read_iter_next g d)) <> Throw (PyAttributeError name))
  /\ well_formed (snd (read_iter_next g d)).
Proof.
  intros Hok d.
  destruct (Dataset_new_well_formed u m c stats verbose Hok) as [Hwf0 Hm0].
  destruct (after_well_formed ops _ Hwf0) as [Hwf Hm]. fold d in Hwf, Hm.
  repeat apply conj; [done|by rewrite Hm|by apply invoke_safe|
                      by apply read_iter_next_safe..].
Qed.


End Properties.

(** * Concrete sessions

    The statements above at sessions over the paging engine, and the
    inputs at which the design document and the code part ways. *)

Lemma init_unsupported_mode_witness :
  "a" <> "r" /\ "a" <> "w"
  /\ Dataset_new (E := ten_by_four) "vcf" "a" None false false =
       (Raise (PyException "Unsupported dataset mode a"),
        mkDataset "vcf" "a" None None None []).
Proof.
  split; [discriminate|]. split; [discriminate|].
  apply (init_unsupported_mode (E := ten_by_four) "vcf" "a" None false false);
    discriminate.
Defined.


Lemma read_conflicting_selection_witness :
  mode fresh_reader_session = "r"
  /\ reader fresh_reader_session = Some (mkPagingReader (seq 0 10) [] StatusConfigured)
  /\ fst (read (E := ten_by_four) ["pos_start"] (Some ["A"]) None (Some "samples.txt")
            (Some "regions.bed") fresh_reader_session) =
       Raise (PyTypeError conflicting_selection_message).
Proof.
  split; [reflexivity|]. split; [reflexivity|].
  exact (f_equal fst
           (proj1 (read_conflicting_selection (E := ten_by_four) fresh_reader_session
                     (mkPagingReader (seq 0 10) [] StatusConfigured) ["pos_start"] ["A"]
                     None "samples.txt" (Some "regions.bed") eq_refl eq_refl))).
Defined.

(** Seven matching records fit one read unit: [count] hands the engine
    the two selections and returns 7. *)
Lemma count_single_unit_witness :
  mode small_reader_session = "r"
  /\ reader small_reader_session = Some (mkPagingReader (seq 0 7) [] StatusConfigured)
  /\ fst (count (E := paging_engine (seq 0 7) 8 4) (Some ["A"; "B"])
            (Some ["chr1:1-100"; "chr2:5-50"]) small_reader_session) = Ok 7%Z
  /\ calls_since small_reader_session
       (snd (count (E := paging_engine (seq 0 7) 8 4) (Some ["A"; "B"])
               (Some ["chr1:1-100"; "chr2:5-50"]) small_reader_session)) =
     [ReaderCmd R_reset; ReaderCmd (R_set_samples "A,B");
      ReaderCmd (R_set_regions "chr1:1-100,chr2:5-50"); ReaderCmd R_read;
      ReaderQuery Q_completed; ReaderQuery Q_result_num_records].
Proof.
  split; [reflexivity|]. split; [reflexivity|].
  rewrite (proj1 (count_single_unit (E := paging_engine (seq 0 7) 8 4)
                    small_reader_session
                    (mkPagingReader (seq 0 7) [] StatusConfigured)
                    (Some ["A"; "B"]) (Some ["chr1:1-100"; "chr2:5-50"])
                    eq_refl eq_refl)).
  split; reflexivity.
Defined.

(** Ten matching records, four per unit: the engine reports the single
    unit of [count] incomplete. *)
Example count_incomplete_unit :
  fst (count (E := ten_by_four) None None fresh_reader_session) =
    Raise (PyException "Unexpected read status during count.").
Proof. reflexivity. Qed.

Lemma read_iter_sequence_witness :
  mode mid_read_session = "r"
  /\ reader mid_read_session =
       Some (mkPagingReader [4; 5; 6; 7; 8; 9] [0; 1; 2; 3] StatusMidRead)
  /\ @reader_completed ten_by_four
       (mkPagingReader [4; 5; 6; 7; 8; 9] [0; 1; 2; 3] StatusMidRead) = false
  /\ fst (fst (read_iter_next (E := ten_by_four)
                 (read_iter ["pos_start"] None None None None) fresh_reader_session)) =
       Yield (E := ten_by_four) [0; 1; 2; 3]
  /\ exists df d',
       continue_read (E := ten_by_four)
         (logged mid_read_session [ReaderQuery Q_completed]) = (Ok df, d')
       /\ read_iter_next
            (gen_moved (read_iter ["pos_start"] None None None None) GenSuspended)
            mid_read_session =
          (Yield df, gen_moved (read_iter ["pos_start"] None None None None) GenSuspended,
           d').
Proof.
  split; [reflexivity|]. split; [reflexivity|]. split; [reflexivity|].
  split; [reflexivity|].
  exact (proj1 (proj2 (read_iter_sequence (E := ten_by_four) mid_read_session
                         (mkPagingReader [4; 5; 6; 7; 8; 9] [0; 1; 2; 3] StatusMidRead)
                         ["pos_start"] None None None None
                         (gen_moved (read_iter ["pos_start"] None None None None)
                            GenSuspended)
                         eq_refl eq_refl))
           eq_refl eq_refl).
Defined.

(** C2 fails on a session whose previous read is complete: the first
    [next] of a new [read_iter(...)] ends the sequence, so its first
    element is not what [read(...)] produces there, which is the first
    four rows. *)
Lemma read_iter_first_next_on_completed_session :
  mode drained_session = "r"
  /\ fst (fst (read_iter_next (E := ten_by_four)
                 (read_iter ["pos_start"] None None None None) drained_session)) =
       StopIteration
  /\ fst (read (E := ten_by_four) ["pos_start"] None None None None drained_session) =
       Ok [0; 1; 2; 3].
Proof. split; [|split]; vm_compute; reflexivity. Qed.

(** A generator closed on the drained session stays closed on a session
    that has rows left. *)
Example closed_generator_stays_closed :
  let closed :=
    snd (fst (read_iter_next (E := ten_by_four)
                (read_iter ["pos_start"] None None None None) drained_session)) in
  gen_state closed = GenClosed
  /\ fst (read_completed (E := ten_by_four) mid_read_session) = Ok false
  /\ read_iter_next (E := ten_by_four) closed mid_read_session =
       (StopIteration, closed, mid_read_session).
Proof. cbv zeta. split; [|split]; vm_compute; reflexivity. Qed.

(** Ten records at four per unit come as three frames of 4, 4 and 2
    rows, and [read_completed()] is true afterwards. *)
Example ten_records_in_three_frames :
  (fun r => (length <$> frames r, interrupted r, fst (read_completed (final r)))) <$>
    exhaust (E := ten_by_four) 4 (read_iter ["pos_start"] None None None None) []
      fresh_reader_session
  = Some ([4; 4; 2], None, Ok true).
Proof. reflexivity. Qed.

Lemma read_iter_matches_manual_loop_witness :
  fst (read_completed (E := ten_by_four) fresh_reader_session) <> Ok true
  /\ observed <$> exhaust (E := ten_by_four) 4
                    (read_iter ["pos_start"] None None None None) [] fresh_reader_session =
     observed <$> manual_read_loop 3 ["pos_start"] None None None None
                    fresh_reader_session
  /\ observed <$> manual_read_loop (E := ten_by_four) 3 ["pos_start"] None None None None
                    fresh_reader_session = Some (10, Ok true).
Proof.
  assert (fst (read_completed (E := ten_by_four) fresh_reader_session) <> Ok true)
    as Hnot by discriminate.
  split; [exact Hnot|]. split; [|reflexivity].
  exact (proj2 (read_iter_matches_manual_loop (E := ten_by_four) fresh_reader_session
                  ["pos_start"] None None None None 3 Hnot)).
Defined.

(** C1 fails on a session whose previous read is complete: the generator
    finds [read_completed()] true and yields nothing, while [read(...)]
    resets the handle and the manual loop delivers all ten rows. *)
Lemma read_iter_after_completed_read :
  mode drained_session = "r"
  /\ fst (read_completed (E := ten_by_four) drained_session) = Ok true
  /\ observed <$> exhaust (E := ten_by_four) 4
                    (read_iter ["pos_start"] None None None None) [] drained_session
     = Some (0, Ok true)
  /\ observed <$> manual_read_loop (E := ten_by_four) 3 ["pos_start"] None None None None
                    drained_session
     = Some (10, Ok true).
Proof. repeat split; reflexivity. Qed.

Lemma ingest_incomplete_scratch_witness :
  mode fresh_writer_session = "w"
  /\ writer fresh_writer_session = Some [W_init "vcf"; W_set_verbose false]
  /\ exactly_one (Some "/scratch") (None : option Z)
  /\ ingest_samples (E := ten_by_four) (Some ["a.vcf.gz"]) (Some 4%Z) None
       (Some "/scratch") None None fresh_writer_session =
       (Raise (PyException incomplete_scratch_message),
        with_writer fresh_writer_session
          [W_init "vcf"; W_set_verbose false; W_set_num_threads 4]
          [WriterCmd (W_set_num_threads 4)]).
Proof.
  assert (exactly_one (Some "/scratch") (None : option Z)) as Hone by discriminate.
  split; [reflexivity|]. split; [reflexivity|]. split; [exact Hone|].
  exact (proj1 (ingest_incomplete_scratch (E := ten_by_four) fresh_writer_session
                  [W_init "vcf"; W_set_verbose false] ["a.vcf.gz"] (Some 4%Z) None
                  (Some "/scratch") None None eq_refl eq_refl Hone)).
Defined.

(** C7 fails when [sample_uris] is left unset: the early return comes
    before the scratch-space test, and the call succeeds. *)
Lemma ingest_unset_ignores_partial_scratch :
  mode fresh_writer_session = "w"
  /\ exactly_one (Some "/scratch") (None : option Z)
  /\ ingest_samples (E := ten_by_four) None None None (Some "/scratch") None None
       fresh_writer_session = (Ok tt, fresh_writer_session).
Proof. split; [reflexivity|]. split; [discriminate|reflexivity]. Qed.

Lemma ingest_unset_is_noop_witness :
  mode fresh_writer_session = "w"
  /\ ingest_samples (E := ten_by_four) None (Some 4%Z) (Some 1024%Z) None None (Some 10%Z)
       fresh_writer_session = (Ok tt, fresh_writer_session).
Proof.
  split; [reflexivity|].
  exact (ingest_unset_is_noop (E := ten_by_four) fresh_writer_session (Some 4%Z)
           (Some 1024%Z) None None (Some 10%Z) eq_refl).
Defined.

(** C8 fails for an empty list: only [None] returns early.  With
    [sample_uris=[]] the writer is given an empty sample list and told to
    ingest. *)
Lemma ingest_empty_list_reaches_engine :
  mode fresh_writer_session = "w"
  /\ calls_since fresh_writer_session
       (snd (ingest_samples (E := ten_by_four) (Some []) None None None None None
               fresh_writer_session)) =
     [WriterCmd (W_set_samples ""); WriterQuery WQ_get_schema_version;
      WriterCmd W_ingest_samples]
  /\ writer (snd (ingest_samples (E := ten_by_four) (Some []) None None None None None
                    fresh_writer_session)) <> writer fresh_writer_session.
Proof. split; [reflexivity|]. split; [reflexivity|discriminate]. Qed.

Lemma mode_discipline_witness :
  is_read_side (Op_count None None) = true
  /\ Op_count None None <> Op_schema_version
  /\ mode fresh_writer_session = "w"
  /\ exists e, invoke (E := ten_by_four) (Op_count None None) fresh_writer_session =
                 (Some e, fresh_writer_session)
               /\ failure_of e = Some InvalidMode.
Proof.
  assert (Op_count None None <> Op_schema_version) as Hop
    by discriminate.
  split; [reflexivity|]. split; [exact Hop|]. split; [reflexivity|].
  exact (proj1 (proj2 (mode_discipline (E := ten_by_four) (Op_count None None)
                         fresh_writer_session))
           eq_refl Hop eq_refl).
Defined.

(** C9 fails for [schema_version]: it is listed with the read-side
    operations, yet on a writing session it answers from the writer
    handle instead of raising. *)
Lemma schema_version_on_writing_session :
  is_read_side Op_schema_version = true
  /\ mode fresh_writer_session = "w"
  /\ fst (schema_version (E := ten_by_four) fresh_writer_session) = Ok 4%Z
  /\ fst (invoke (E := ten_by_four) Op_schema_version fresh_writer_session) = None.
Proof. repeat split; reflexivity. Qed.

Lemma attributes_invalid_kind_witness :
  mode fresh_reader_session = "r"
  /\ str_in "format" attr_types = false
  /\ fst (attributes (E := ten_by_four) "format" fresh_reader_session) =
       Raise (PyTypeError "not all arguments converted during string formatting").
Proof.
  split; [reflexivity|]. split; [reflexivity|].
  exact (f_equal fst
           (proj1 (attributes_invalid_kind (E := ten_by_four) fresh_reader_session
                     "format" eq_refl eq_refl))).
Defined.

(** The valid selections on the paging engine's dataset. *)
Example attributes_of_paging_dataset :
  fst (attributes (E := ten_by_four) "all" fresh_reader_session) =
    Ok ["alleles"; "contig"; "fmt_GT"; "info_DP"; "pos_start"; "sample_name"]
  /\ fst (attributes (E := ten_by_four) "builtin" fresh_reader_session) =
       Ok ["alleles"; "contig"; "pos_start"; "sample_name"].
Proof. split; vm_compute; reflexivity. Qed.

(** * The further properties at concrete sessions *)

Lemma read_call_record_witness :
  mode fresh_reader_session = "r"
  /\ reader fresh_reader_session = Some (mkPagingReader (seq 0 10) [] StatusConfigured)
  /\ conflicting None (Some "samples.txt") = false
  /\ calls_since fresh_reader_session
       (snd (read (E := ten_by_four) ["pos_start"; "alleles"] None
               (Some ["chr1:1-100"; "chr2:5-50"]) (Some "samples.txt")
               (Some "regions.bed") fresh_reader_session)) =
     [ReaderCmd R_reset; ReaderCmd (R_set_samples "");
      ReaderCmd (R_set_samples_file "samples.txt");
      ReaderCmd (R_set_regions "chr1:1-100,chr2:5-50");
      ReaderCmd (R_set_attributes ["pos_start"; "alleles"]);
      ReaderCmd (R_set_bed_file "regions.bed"); ReaderCmd R_read;
      ReaderQuery Q_get_results_arrow].
Proof.
  split; [reflexivity|]. split; [reflexivity|]. split; [reflexivity|].
  exact (proj1 (read_call_record (E := ten_by_four) fresh_reader_session
                  (mkPagingReader (seq 0 10) [] StatusConfigured)
                  ["pos_start"; "alleles"] None (Some ["chr1:1-100"; "chr2:5-50"])
                  (Some "samples.txt") (Some "regions.bed") eq_refl eq_refl eq_refl)).
Defined.

Lemma metadata_leaves_handles_witness :
  is_metadata (Op_attributes "builtin") = true
  /\ reader (snd (invoke (E := ten_by_four) (Op_attributes "builtin") mid_read_session)) =
       reader mid_read_session.
Proof.
  split; [reflexivity|].
  exact (proj1 (metadata_leaves_handles (E := ten_by_four) (Op_attributes "builtin")
                  mid_read_session eq_refl)).
Defined.

Lemma create_dataset_call_record_witness :
  mode fresh_writer_session = "w"
  /\ writer fresh_writer_session = Some [W_init "vcf"; W_set_verbose false]
  /\ calls_since fresh_writer_session
       (snd (create_dataset (E := ten_by_four) (Some ["fmt_GT"; "fmt_DP"]) None
               (Some 500%Z) (Some "SHA256") true fresh_writer_session)) =
     [WriterCmd (W_set_extra_attributes "fmt_GT,fmt_DP");
      WriterCmd (W_set_anchor_gap 500); WriterCmd (W_set_checksum "sha256");
      WriterCmd (W_set_allow_duplicates true); WriterCmd W_create_dataset].
Proof.
  split; [reflexivity|]. split; [reflexivity|].
  exact (proj1 (create_dataset_call_record (E := ten_by_four) fresh_writer_session
                  [W_init "vcf"; W_set_verbose false] (Some ["fmt_GT"; "fmt_DP"]) None
                  (Some 500%Z) (Some "SHA256") true eq_refl eq_refl)).
Defined.

(** On a dataset of schema version 3 the samples are registered before
    they are ingested. *)
Lemma ingest_call_record_witness :
  mode old_schema_writer_session = "w"
  /\ writer old_schema_writer_session = Some [W_init "vcf"; W_set_verbose false]
  /\ is_not_None (None : option string) = is_not_None (None : option Z)
  /\ calls_since old_schema_writer_session
       (snd (ingest_samples (E := paging_engine (seq 0 10) 4 3)
               (Some ["a.vcf.gz"; "b.vcf.gz"]) None (Some 2048%Z) None None None
               old_schema_writer_session)) =
     [WriterCmd (W_set_memory_budget 2048); WriterCmd (W_set_samples "a.vcf.gz,b.vcf.gz");
      WriterQuery WQ_get_schema_version; WriterCmd W_register_samples;
      WriterCmd W_ingest_samples].
Proof.
  split; [reflexivity|]. split; [reflexivity|]. split; [reflexivity|].
  exact (proj1 (ingest_call_record (E := paging_engine (seq 0 10) 4 3)
                  old_schema_writer_session [W_init "vcf"; W_set_verbose false]
                  ["a.vcf.gz"; "b.vcf.gz"] None (Some 2048%Z) None None None
                  eq_refl eq_refl eq_refl)).
Defined.

(** On a dataset of schema version 4 they are not. *)
Example ingest_on_current_schema :
  calls_since fresh_writer_session
    (snd (ingest_samples (E := ten_by_four) (Some ["a.vcf.gz"]) None None
            (Some "/scratch") (Some 10%Z) None fresh_writer_session)) =
  [WriterCmd (W_set_scratch_space "/scratch" 10); WriterCmd (W_set_samples "a.vcf.gz");
   WriterQuery WQ_get_schema_version; WriterCmd W_ingest_samples].
Proof. reflexivity. Qed.

Lemma frames_match_read_units_witness :
  mode fresh_reader_session = "r"
  /\ reader fresh_reader_session = Some (mkPagingReader (seq 0 10) [] StatusConfigured)
  /\ exhaust (E := ten_by_four) 4 (read_iter ["pos_start"] None None None None) []
       fresh_reader_session = Some drained_result
  /\ interrupted drained_result = None
  /\ read_units (calls_since fresh_reader_session (final drained_result)) = 3.
Proof.
  assert (exhaust (E := ten_by_four) 4 (read_iter ["pos_start"] None None None None) []
            fresh_reader_session = Some drained_result) as Hres
    by (vm_compute; reflexivity).
  split; [reflexivity|]. split; [reflexivity|]. split; [exact Hres|].
  split; [reflexivity|].
  rewrite <- (frames_match_read_units (E := ten_by_four) 4
                (read_iter ["pos_start"] None None None None) fresh_reader_session
                (mkPagingReader (seq 0 10) [] StatusConfigured) drained_result
                eq_refl eq_refl Hres eq_refl).
  reflexivity.
Defined.

Lemma drain_ends_completed_witness :
  mode fresh_reader_session = "r"
  /\ reader fresh_reader_session = Some (mkPagingReader (seq 0 10) [] StatusConfigured)
  /\ gen_state (read_iter ["pos_start"] None None None None) <> GenClosed
  /\ exhaust (E := ten_by_four) 4 (read_iter ["pos_start"] None None None None) []
       fresh_reader_session = Some drained_result
  /\ interrupted drained_result = None
  /\ fst (read_completed (E := ten_by_four) (final drained_result)) = Ok true.
Proof.
  assert (gen_state (read_iter ["pos_start"] None None None None) <> GenClosed)
    as Hopen by discriminate.
  assert (exhaust (E := ten_by_four) 4 (read_iter ["pos_start"] None None None None) []
            fresh_reader_session = Some drained_result) as Hres
    by (vm_compute; reflexivity).
  split; [reflexivity|]. split; [reflexivity|]. split; [exact Hopen|].
  split; [exact Hres|]. split; [reflexivity|].
  rewrite (drain_ends_completed (E := ten_by_four) 4
             (read_iter ["pos_start"] None None None None) [] fresh_reader_session
             (mkPagingReader (seq 0 10) [] StatusConfigured) drained_result
             eq_refl eq_refl Hopen Hres eq_refl).
  reflexivity.
Defined.

Lemma read_iter_terminates_witness :
  mode fresh_reader_session = "r"
  /\ reader fresh_reader_session = Some (mkPagingReader (seq 0 10) [] StatusConfigured)
  /\ @reader_completed ten_by_four (mkPagingReader (seq 0 10) [] StatusConfigured) = false
  /\ conflicting (Some ["A"; "B"]) None = false
  /\ completes_within (E := ten_by_four) 2
       (reader_after (E := ten_by_four)
          (read_commands ["pos_start"] (Some ["A"; "B"]) None None None)
          (mkPagingReader (seq 0 10) [] StatusConfigured)) = true
  /\ exists res,
       exhaust (E := ten_by_four) 4
         (read_iter ["pos_start"] (Some ["A"; "B"]) None None None) []
         fresh_reader_session = Some res
       /\ interrupted res = None
       /\ 1 <= length (frames res)
       /\ fst (read_completed (final res)) = Ok true.
Proof.
  split; [reflexivity|]. split; [reflexivity|]. split; [reflexivity|].
  split; [reflexivity|]. split; [reflexivity|].
  exact (read_iter_terminates (E := ten_by_four) 2 fresh_reader_session
           (mkPagingReader (seq 0 10) [] StatusConfigured) ["pos_start"]
           (Some ["A"; "B"]) None None None eq_refl eq_refl eq_refl eq_refl eq_refl).
Defined.


Lemma read_iter_after_count_is_empty_witness :
  mode small_reader_session = "r"
  /\ reader small_reader_session = Some (mkPagingReader (seq 0 7) [] StatusConfigured)
  /\ fst (count (E := paging_engine (seq 0 7) 8 4) None None small_reader_session)
       = Ok 7%Z
  /\ frames <$> exhaust (E := paging_engine (seq 0 7) 8 4) 1
                  (read_iter ["pos_start"] None None None None) []
                  (snd (count None None small_reader_session)) = Some [].
Proof.
  split; [reflexivity|]. split; [reflexivity|]. split; [reflexivity|].
  exact (f_equal (fmap frames)
           (read_iter_after_count_is_empty (E := paging_engine (seq 0 7) 8 4) 0
              small_reader_session (mkPagingReader (seq 0 7) [] StatusConfigured) 7%Z
              None None ["pos_start"] None None None None eq_refl eq_refl eq_refl)).
Defined.

Lemma constructed_session_is_safe_witness :
  fst (Dataset_new (E := ten_by_four) "vcf" "w" None false true) = Ok tt
  /\ mode (after (E := ten_by_four)
             [Op_count None None; Op_create_dataset None None None None true;
              Op_ingest_samples (Some ["a.vcf.gz"]) None None None None None]
             (snd (Dataset_new "vcf" "w" None false true))) = "w".
Proof.
  split; [reflexivity|].
  exact (proj1 (proj2 (constructed_session_is_safe (E := ten_by_four) "vcf" "w" None
                         false true
                         [Op_count None None; Op_create_dataset None None None None true;
                          Op_ingest_samples (Some ["a.vcf.gz"]) None None None None None]
                         Op_schema_version
                         (read_iter [] None None None None) eq_refl))).
Defined.

Lemma attributes_classification_witness :
  mode fresh_reader_session = "r"
  /\ reader fresh_reader_session = Some (mkPagingReader (seq 0 10) [] StatusConfigured)
  /\ exists all builtin,
       fst (attributes (E := ten_by_four) "all" fresh_reader_session) = Ok all
       /\ fst (attributes (E := ten_by_four) "builtin" fresh_reader_session) = Ok builtin
       /\ builtin ⊆ all.
Proof.
  split; [reflexivity|]. split; [reflexivity|].
  destruct (attributes_classification (E := ten_by_four) fresh_reader_session
              (mkPagingReader (seq 0 10) [] StatusConfigured) eq_refl eq_refl)
    as (all & builtin & Hall & Hbuiltin & _ & _ & _ & _ & _ & _ & _ & _ & _ & Hsub).
  exists all, builtin. split; [exact Hall|]. split; [exact Hbuiltin|exact Hsub].
Defined.
